(** * Announcement endpoints of the High School Management System API

    A shallow embedding of [src/backend/routers/announcements.py].

    The handlers are small Python functions that talk to two MongoDB
    collections through the driver's [Collection] interface ([find],
    [find_one], [insert_one], [update_one], [delete_one]).  Python dicts
    are finite maps from field names to values, a collection is the list
    of its documents in natural order, and a handler is a computation in
    a state-and-exception monad over the two collections.  Every call
    made on a collection is also recorded, so that "the store is not
    touched" and "the directory is not consulted" are statements about
    the record of calls. *)

From stdpp Require Import gmap strings list fin_maps pretty.

Open Scope Z_scope.

(** ** Python values and dicts *)

(** The values that occur in the documents of the two collections:
    [None], booleans, [str], [datetime] (abstracted to the instant it
    denotes) and the driver's [ObjectId] (held as its 24-digit hex
    rendering). *)
Inductive value :=
  | VNone
  | VBool (b : bool)
  | VStr (s : string)
  | VDate (t : Z)
  | VOid (hex : string).

#[global] Instance value_eq_dec : EqDecision value.
Proof. solve_decision. Defined.

(** A Python [dict] with string keys, and equally a BSON document. *)
Abbreviation doc := (gmap string value).

(** [str(v)]: a [str] is itself and an [ObjectId] is its hex rendering.
    A datetime is abstract here, and so is its rendering. *)
Definition py_str (v : value) : string :=
  match v with
  | VNone => "None"
  | VBool true => "True"
  | VBool false => "False"
  | VStr s => s
  | VDate t => pretty t
  | VOid hex => hex
  end.

(** [not username] for [username : Optional[str]]: [None] and the empty
    string are both falsy. *)
Definition not_str (username : option string) : bool :=
  match username with
  | None => true
  | Some s => bool_decide (s = "")
  end.

(** [not d] for [d] the result of [find_one] ([None] or a dict), and
    for a dict: [None] and the empty dict are falsy. *)
Definition not_dict (d : doc) : bool := bool_decide (d = ∅).

Definition not_opt_dict (d : option doc) : bool :=
  match d with
  | None => true
  | Some d => not_dict d
  end.

(** ** Exceptions and outcomes *)

Inductive exn :=
  | HTTPException (status_code : Z) (detail : string)
  | KeyError (key : string)
  | AttributeError
  | DuplicateKeyError.

Inductive outcome (A : Type) :=
  | Return (a : A)
  | Raise (e : exn).
Arguments Return {A} a.
Arguments Raise {A} e.

(** The failure kinds of the service and the exceptions they are. *)
Definition Unauthenticated : exn := HTTPException 401 "Authentication required.".
Definition InvalidCaller : exn := HTTPException 401 "Invalid user.".
Definition NoFieldsToUpdate : exn := HTTPException 400 "No fields to update.".
Definition NotFound : exn := HTTPException 404 "Announcement not found.".

(** ** The document store *)

(** The two query shapes the handlers use:
    [{"_id": k}] and [{field: {"$gte": t}}]. *)
Inductive filter :=
  | ById (k : value)
  | FieldGte (field : string) (t : Z).

(** Equality on [_id] is equality of BSON values, so a [str] never
    equals an [ObjectId].  [$gte] against a date matches only documents
    whose field holds a date at or after it. *)
Definition matches (q : filter) (d : doc) : bool :=
  match q with
  | ById k => bool_decide (d !! "_id" = Some k)
  | FieldGte field t =>
      match d !! field with
      | Some (VDate e) => t <=? e
      | _ => false
      end
  end.

Module Collection.

(** [find(q)]: the matching documents, in natural order. *)
Definition find (q : filter) (c : list doc) : list doc :=
  List.filter (matches q) c.

(** [find_one(q)]: the first matching document, or [None]. *)
Fixpoint find_one (q : filter) (c : list doc) : option doc :=
  match c with
  | [] => None
  | d :: c' => if matches q d then Some d else find_one q c'
  end.

(** [update_one(q, {"$set": fields})]: the first matching document
    gets the fields of [fields], its other fields stay.  The result is
    the collection and [matched_count]. *)
Fixpoint update_one (q : filter) (fields : doc) (c : list doc)
  : list doc * Z :=
  match c with
  | [] => ([], 0)
  | d :: c' =>
      if matches q d then ((fields ∪ d) :: c', 1)
      else let '(c'', n) := update_one q fields c' in (d :: c'', n)
  end.

(** [delete_one(q)]: the first matching document is removed.  The
    result is the collection and [deleted_count]. *)
Fixpoint delete_one (q : filter) (c : list doc) : list doc * Z :=
  match c with
  | [] => ([], 0)
  | d :: c' =>
      if matches q d then (c', 1)
      else let '(c'', n) := delete_one q c' in (d :: c'', n)
  end.

(** [insert_one(d)]: the driver adds an [_id] holding a new
    [ObjectId] to the caller's dict when it has none, and the store
    refuses a document whose [_id] is taken.  [oid] is the [ObjectId]
    the driver generates.  The result is the caller's dict as the
    driver leaves it and, when the insert is accepted, the collection
    with the document appended. *)
Definition with_id (oid : string) (d : doc) : doc :=
  match d !! "_id" with
  | Some _ => d
  | None => <["_id" := VOid oid]> d
  end.

Definition id_of (d : doc) : value := default VNone (d !! "_id").

Definition insert_one (oid : string) (d : doc) (c : list doc)
  : doc * option (list doc) :=
  let d' := with_id oid d in
  match find_one (ById (id_of d')) c with
  | Some _ => (d', None)
  | None => (d', Some (c ++ [d']))
  end.

End Collection.

(** ** The world of a request *)

(** The process-wide handles of [..database]. *)
Inductive handle := announcements_collection | teachers_collection.

#[global] Instance handle_eq_dec : EqDecision handle.
Proof. solve_decision. Defined.

(** One call on a collection, as the driver receives it. *)
Inductive operation :=
  | Find (q : filter)
  | FindOne (q : filter)
  | InsertOne (d : doc)
  | UpdateOne (q : filter) (fields : doc)
  | DeleteOne (q : filter).

Record world := World {
  announcements : list doc;
  teachers : list doc;
  calls : list (handle * operation)
}.

Definition contents (h : handle) (w : world) : list doc :=
  match h with
  | announcements_collection => announcements w
  | teachers_collection => teachers w
  end.

Definition set_contents (h : handle) (c : list doc) (w : world) : world :=
  match h with
  | announcements_collection => World c (teachers w) (calls w)
  | teachers_collection => World (announcements w) c (calls w)
  end.

Definition record_call (h : handle) (o : operation) (w : world) : world :=
  World (announcements w) (teachers w) (calls w ++ [(h, o)]).

(** The calls made on the Announcement Store. *)
Definition store_calls (w : world) : list operation :=
  omap (λ c, if decide (c.1 = announcements_collection) then Some c.2 else None)
       (calls w).

(** ** The monad of handlers: state and exceptions *)

Definition M (A : Type) : Type := world → outcome A * world.

#[global] Instance M_ret : MRet M := λ A a w, (Return a, w).

#[global] Instance M_bind : MBind M := λ A B k m w,
  match m w with
  | (Return a, w') => k a w'
  | (Raise e, w') => (Raise e, w')
  end.

Definition raise {A} (e : exn) : M A := λ w, (Raise e, w).
Definition lift {A} (o : outcome A) : M A := λ w, (o, w).

(** The driver's calls, on the world. *)
Definition find (h : handle) (q : filter) : M (list doc) :=
  λ w, (Return (Collection.find q (contents h w)), record_call h (Find q) w).

Definition find_one (h : handle) (q : filter) : M (option doc) :=
  λ w, (Return (Collection.find_one q (contents h w)),
        record_call h (FindOne q) w).

Record UpdateResult := { matched_count : Z }.
Record DeleteResult := { deleted_count : Z }.
Record InsertOneResult := { inserted_id : value }.

Definition update_one (h : handle) (q : filter) (fields : doc)
  : M UpdateResult :=
  λ w, let '(c, n) := Collection.update_one q fields (contents h w) in
       (Return {| matched_count := n |},
        record_call h (UpdateOne q fields) (set_contents h c w)).

Definition delete_one (h : handle) (q : filter) : M DeleteResult :=
  λ w, let '(c, n) := Collection.delete_one q (contents h w) in
       (Return {| deleted_count := n |},
        record_call h (DeleteOne q) (set_contents h c w)).

(** [insert_one] returns its result together with the caller's dict,
    which the driver has changed in place. *)
Definition insert_one (oid : string) (h : handle) (d : doc)
  : M (InsertOneResult * doc) :=
  λ w, match Collection.insert_one oid d (contents h w) with
       | (d', Some c) =>
           (Return ({| inserted_id := Collection.id_of d' |}, d'),
            record_call h (InsertOne d') (set_contents h c w))
       | (d', None) =>
           (Raise DuplicateKeyError, record_call h (InsertOne d') w)
       end.

(** ** The handlers *)

(** [ann["id"] = str(ann.pop("_id"))] *)
Definition pop_id (ann : doc) : outcome doc :=
  match ann !! "_id" with
  | Some k => Return (<["id" := VStr (py_str k)]> (delete "_id" ann))
  | None => Raise (KeyError "_id")
  end.

(** [for ann in announcements: ann["id"] = str(ann.pop("_id"))] *)
Fixpoint pop_ids (anns : list doc) : outcome (list doc) :=
  match anns with
  | [] => Return []
  | ann :: anns' =>
      match pop_id ann with
      | Raise e => Raise e
      | Return ann' =>
          match pop_ids anns' with
          | Raise e => Raise e
          | Return anns'' => Return (ann' :: anns'')
          end
      end
  end.

Definition require_auth (username : option string) : M doc :=
  if not_str username then raise Unauthenticated
  else
    teacher ← find_one teachers_collection (ById (VStr (default "" username)));
    if not_opt_dict teacher then raise InvalidCaller
    else mret (default ∅ teacher).

(** [now] is the reading of [datetime.now()]. *)
Definition get_announcements (now : Z) : M (list doc) :=
  anns ← find announcements_collection (FieldGte "expiration" now);
  lift (pop_ids anns).

Definition opt_date (d : option Z) : value :=
  match d with
  | Some t => VDate t
  | None => VNone
  end.

(** [oid] is the [ObjectId] the driver generates inside [insert_one];
    [username] is what [require_auth] returned. *)
Definition create_announcement (oid : string)
    (message : string) (expiration : Z) (start_date : option Z)
    (username : doc) : M doc :=
  let ann : doc :=
    {[ "message" := VStr message;
       "expiration" := VDate expiration;
       "start_date" := opt_date start_date ]} in
  r ← insert_one oid announcements_collection ann;
  let '(result, ann) := r in
  mret (<["id" := VStr (py_str (inserted_id result))]> ann).

(** [if x is not None: update_fields[key] = x] *)
Definition set_if {A} (key : string) (inj : A → value) (x : option A)
    (update_fields : doc) : doc :=
  match x with
  | Some a => <[key := inj a]> update_fields
  | None => update_fields
  end.

Definition update_fields_of (message : option string)
    (expiration start_date : option Z) : doc :=
  set_if "start_date" VDate start_date
    (set_if "expiration" VDate expiration
       (set_if "message" VStr message ∅)).

Definition update_announcement (announcement_id : string)
    (message : option string) (expiration start_date : option Z)
    (username : doc) : M doc :=
  let update_fields := update_fields_of message expiration start_date in
  if not_dict update_fields then raise NoFieldsToUpdate
  else
    result ← update_one announcements_collection
               (ById (VStr announcement_id)) update_fields;
    if bool_decide (matched_count result = 0) then raise NotFound
    else
      ann ← find_one announcements_collection (ById (VStr announcement_id));
      match ann with
      | None => raise AttributeError
      | Some ann => lift (pop_id ann)
      end.

Definition delete_announcement (announcement_id : string)
    (username : doc) : M doc :=
  result ← delete_one announcements_collection (ById (VStr announcement_id));
  if bool_decide (deleted_count result = 0) then raise NotFound
  else mret {[ "success" := VBool true ]}.

(** ** The routes *)

(** [username = Depends(require_auth)]: the framework runs the
    dependency on the request's [username] and hands its result to the
    handler; when the dependency raises, the handler does not run. *)
Definition Depends_require_auth {A} (handler : doc → M A)
    (username : option string) : M A :=
  teacher ← require_auth username;
  handler teacher.

(** The three mutating requests, with the arguments of their handlers. *)
Inductive mutation :=
  | Create (oid : string) (message : string) (expiration : Z)
           (start_date : option Z)
  | Update (announcement_id : string) (message : option string)
           (expiration start_date : option Z)
  | Delete (announcement_id : string).

Definition handler_of (r : mutation) : doc → M doc :=
  match r with
  | Create oid message expiration start_date =>
      create_announcement oid message expiration start_date
  | Update announcement_id message expiration start_date =>
      update_announcement announcement_id message expiration start_date
  | Delete announcement_id => delete_announcement announcement_id
  end.

(** A mutating request as the router serves it. *)
Definition serve (r : mutation) (username : option string) : M doc :=
  Depends_require_auth (handler_of r) username.

(** [GET /announcements] has no dependency and takes no caller. *)
Definition list_active (now : Z) : M (list doc) := get_announcements now.

(** ** A request served amid others *)

(** The handlers above run one request from its first store call to its
    last.  The server takes other requests at the same time, and the
    store takes their calls between the calls of this one.  Update is
    the one handler that calls the store twice: [others] is what the
    other requests do to the world between its [update_one] and its
    [find_one]. *)
Definition meanwhile (others : world → world) : M unit :=
  λ w, (Return (), others w).

Definition update_announcement_amid (others : world → world)
    (announcement_id : string)
    (message : option string) (expiration start_date : option Z)
    (username : doc) : M doc :=
  let update_fields := update_fields_of message expiration start_date in
  if not_dict update_fields then raise NoFieldsToUpdate
  else
    result ← update_one announcements_collection
               (ById (VStr announcement_id)) update_fields;
    if bool_decide (matched_count result = 0) then raise NotFound
    else
      _ ← meanwhile others;
      ann ← find_one announcements_collection (ById (VStr announcement_id));
      match ann with
      | None => raise AttributeError
      | Some ann => lift (pop_id ann)
      end.

Definition handler_of_amid (others : world → world) (r : mutation)
  : doc → M doc :=
  match r with
  | Update announcement_id message expiration start_date =>
      update_announcement_amid others
        announcement_id message expiration start_date
  | _ => handler_of r
  end.

Definition serve_amid (others : world → world) (r : mutation)
    (username : option string) : M doc :=
  Depends_require_auth (handler_of_amid others r) username.

(** ** Vocabulary of the statements *)

(** The representation handed to callers for the stored document [d]:
    the storage key is taken out and its [str] is put under ["id"]. *)
Definition exposed (d : doc) : doc :=
  <["id" := VStr (py_str (Collection.id_of d))]> (delete "_id" d).

(** Every stored document carries an [_id]: the store guarantees it. *)
Definition keyed (c : list doc) : Prop :=
  Forall (λ d : doc, is_Some (d !! "_id")) c.

(** The identifier [u] resolves in the Identity Directory. *)
Definition in_directory (u : string) (w : world) : Prop :=
  ∃ t : doc, t ∈ teachers w ∧ t !! "_id" = Some (VStr u).

(** The caller identifier passes the Authentication Gate. *)
Definition authenticated (username : option string) (w : world) : Prop :=
  ∃ u, username = Some u ∧ u ≠ "" ∧ in_directory u w.

(** The document the store holds under the key [k]. *)
Definition stored (k : value) (w : world) : option doc :=
  Collection.find_one (ById k) (announcements w).

(** Two documents that differ at most in their ["start_date"]. *)
Definition same_but_start_date (d1 d2 : doc) : Prop :=
  delete "start_date" d1 = delete "start_date" d2.

(** The document [create_announcement] builds, as the driver leaves it
    after [insert_one]: the three fields and the new [_id]. *)
Definition created (oid : string) (message : string) (expiration : Z)
    (start_date : option Z) : doc :=
  <["_id" := VOid oid]>
    {[ "message" := VStr message;
       "expiration" := VDate expiration;
       "start_date" := opt_date start_date ]}.

(** A stored document that has the shape of an announcement: a string
    message, a date expiration, and a start_date that is a date or
    [None]. *)
Definition announcement_shaped (d : doc) : Prop :=
  (∃ m, d !! "message" = Some (VStr m))
  ∧ (∃ e, d !! "expiration" = Some (VDate e))
  ∧ (d !! "start_date" = Some VNone ∨ ∃ s, d !! "start_date" = Some (VDate s)).

(** The calls on the store that one mutating request can make. *)
Definition calls_of_one_request (l : list operation) : Prop :=
  l = []
  ∨ (∃ d, l = [InsertOne d])
  ∨ (∃ q fields, l = [UpdateOne q fields])
  ∨ (∃ q fields, l = [UpdateOne q fields; FindOne q])
  ∨ (∃ q, l = [DeleteOne q]).

(** A small world for examples: one teacher, one announcement stored
    under a string key and one stored under an [ObjectId]. *)
Definition alice : doc := {[ "_id" := VStr "alice"; "display_name" := VStr "Ms. Alice" ]}.

Definition welcome : doc :=
  {[ "_id" := VStr "welcome"; "message" := VStr "Welcome back";
     "expiration" := VDate 100; "start_date" := VNone ]}.

Definition bake_sale : doc :=
  {[ "_id" := VOid "65f1c0ffee0000000000000a"; "message" := VStr "Bake sale";
     "expiration" := VDate 10; "start_date" := VDate 5 ]}.

Definition school : world := World [welcome; bake_sale] [alice] [].

(** The same store with a second teacher in the directory. *)
Definition bob : doc := {[ "_id" := VStr "bob"; "display_name" := VStr "Mr. Bob" ]}.

Definition staffroom : world := World [welcome; bake_sale] [alice; bob] [].

(** ** The monad, unfolded *)

Lemma bind_Return {A B} (m : M A) (k : A → M B) w a w' :
  m w = (Return a, w') → (m ≫= k) w = k a w'.
Proof. intros E. unfold mbind, M_bind. by rewrite E. Qed.

Lemma bind_Raise {A B} (m : M A) (k : A → M B) w e w' :
  m w = (Raise e, w') → (m ≫= k) w = (Raise e, w').
Proof. intros E. unfold mbind, M_bind. by rewrite E. Qed.

(** ** The collection operations *)

Section collection.
Implicit Types (q : filter) (c : list doc) (d fields : doc) (k : value).

Lemma find_one_Some q c d :
  Collection.find_one q c = Some d →
  ∃ c1 c2, c = c1 ++ d :: c2 ∧ matches q d = true
           ∧ Forall (λ x, matches q x = false) c1.
Proof.
  induction c as [|x c IH]; simpl; [done|].
  destruct (matches q x) eqn:E.
  - intros [= ->]. by exists [], c.
  - intros (c1 & c2 & -> & ? & ?)%IH.
    exists (x :: c1), c2. split_and!; [done..|by constructor].
Qed.

Lemma find_one_None q c :
  Collection.find_one q c = None ↔ Forall (λ x, matches q x = false) c.
Proof.
  induction c as [|x c IH]; simpl.
  - split; [constructor|done].
  - destruct (matches q x) eqn:E.
    + split; [done|]. intros [? _]%Forall_cons. congruence.
    + rewrite IH. split; [by constructor|by intros [_ ?]%Forall_cons].
Qed.

Lemma find_one_app q c1 c2 :
  Forall (λ x, matches q x = false) c1 →
  Collection.find_one q (c1 ++ c2) = Collection.find_one q c2.
Proof. induction 1 as [|x c1 E _ IH]; simpl; [done|]. by rewrite E. Qed.

Lemma update_one_app q fields c1 d c2 :
  Forall (λ x, matches q x = false) c1 → matches q d = true →
  Collection.update_one q fields (c1 ++ d :: c2)
  = (c1 ++ (fields ∪ d) :: c2, 1).
Proof.
  intros H Hd. induction H as [|x c1 E _ IH]; simpl.
  - by rewrite Hd.
  - by rewrite E, IH.
Qed.

Lemma update_one_none q fields c :
  Forall (λ x, matches q x = false) c →
  Collection.update_one q fields c = (c, 0).
Proof. induction 1 as [|x c E _ IH]; simpl; [done|]. by rewrite E, IH. Qed.

Lemma delete_one_app q c1 d c2 :
  Forall (λ x, matches q x = false) c1 → matches q d = true →
  Collection.delete_one q (c1 ++ d :: c2) = (c1 ++ c2, 1).
Proof.
  intros H Hd. induction H as [|x c1 E _ IH]; simpl.
  - by rewrite Hd.
  - by rewrite E, IH.
Qed.

Lemma delete_one_none q c :
  Forall (λ x, matches q x = false) c →
  Collection.delete_one q c = (c, 0).
Proof. induction 1 as [|x c E _ IH]; simpl; [done|]. by rewrite E, IH. Qed.

Lemma matches_ById k d : matches (ById k) d = true ↔ d !! "_id" = Some k.
Proof. simpl. by rewrite bool_decide_eq_true. Qed.

Lemma not_matches_ById k d : matches (ById k) d = false ↔ d !! "_id" ≠ Some k.
Proof. simpl. by rewrite bool_decide_eq_false. Qed.

(** No document is stored under [k] exactly when the lookup by [k]
    finds nothing. *)
Lemma find_one_ById_None k c :
  Collection.find_one (ById k) c = None ↔ ∀ d, d ∈ c → d !! "_id" ≠ Some k.
Proof.
  rewrite find_one_None, Forall_forall.
  by setoid_rewrite not_matches_ById.
Qed.

(** With keys that are unique, the lookup by key finds exactly the
    document that carries the key. *)
Lemma find_one_ById_unique k c d :
  NoDup ((.!! "_id") <$> c) → d ∈ c → d !! "_id" = Some k →
  Collection.find_one (ById k) c = Some d.
Proof.
  induction c as [|x c IH]; simpl; [by intros _ ?%elem_of_nil|].
  intros [Hx Hc]%NoDup_cons [->|Hd]%elem_of_cons Hk.
  - by rewrite bool_decide_eq_true_2.
  - rewrite bool_decide_eq_false_2; [by apply IH|].
    intros Hxk. apply Hx, list_elem_of_fmap. exists d. by rewrite Hxk, Hk.
Qed.

(** [$set] of fields other than [_id] keeps the key of a document. *)
Lemma matches_ById_set k fields d :
  fields !! "_id" = None →
  matches (ById k) (fields ∪ d) = matches (ById k) d.
Proof.
  intros H. simpl. by rewrite lookup_union_r.
Qed.

End collection.

(** ** The Authentication Gate *)

Section gate.
Implicit Types (w : world) (u : string) (username : option string).

Lemma require_auth_absent w : require_auth None w = (Raise Unauthenticated, w).
Proof. done. Qed.

Lemma require_auth_empty w :
  require_auth (Some "") w = (Raise Unauthenticated, w).
Proof. done. Qed.

Lemma in_directory_find_one u w :
  in_directory u w ↔
  ∃ t, Collection.find_one (ById (VStr u)) (teachers w) = Some t.
Proof.
  split.
  - intros (t & Ht & Hid).
    destruct (Collection.find_one _ _) as [t'|] eqn:E; [by exists t'|].
    rewrite find_one_ById_None in E. by destruct (E t Ht).
  - intros (t & (c1 & c2 & Hc & Hm%matches_ById & _)%find_one_Some).
    exists t. split; [|done]. rewrite Hc. set_solver.
Qed.

Lemma require_auth_unknown u w :
  u ≠ "" → ¬ in_directory u w →
  require_auth (Some u) w
  = (Raise InvalidCaller,
     record_call teachers_collection (FindOne (ById (VStr u))) w).
Proof.
  intros Hu Hdir. unfold require_auth, not_str.
  rewrite bool_decide_eq_false_2 by done.
  unfold mbind, M_bind, find_one. simpl.
  destruct (Collection.find_one _ _) as [t|] eqn:E; [|done].
  destruct Hdir. apply in_directory_find_one. by exists t.
Qed.

Lemma require_auth_known username w :
  authenticated username w →
  ∃ teacher u,
    username = Some u ∧
    require_auth username w
    = (Return teacher,
       record_call teachers_collection (FindOne (ById (VStr u))) w).
Proof.
  intros (u & -> & Hu & (t & Ht)%in_directory_find_one).
  exists t, u. split; [done|]. unfold require_auth, not_str.
  rewrite bool_decide_eq_false_2 by done.
  unfold mbind, M_bind, find_one. simpl. rewrite Ht. simpl.
  apply find_one_Some in Ht as (_ & _ & _ & Hm%matches_ById & _).
  unfold not_dict. rewrite bool_decide_eq_false_2; [done|].
  intros ->. by rewrite lookup_empty in Hm.
Qed.

(** A request that the gate turns away: the handler does not run. *)
Lemma serve_refused r username w e w' :
  require_auth username w = (Raise e, w') →
  serve r username w = (Raise e, w').
Proof. intros E. unfold serve, Depends_require_auth. by apply bind_Raise. Qed.

(** A request that the gate lets through runs its handler after the
    one lookup in the directory. *)
Lemma serve_admitted r username w :
  authenticated username w →
  ∃ teacher u,
    username = Some u ∧
    serve r username w
    = handler_of r teacher
        (record_call teachers_collection (FindOne (ById (VStr u))) w).
Proof.
  intros (teacher & u & -> & E)%require_auth_known.
  exists teacher, u. split; [done|].
  unfold serve, Depends_require_auth. by rewrite (bind_Return _ _ _ _ _ E).
Qed.

Lemma store_calls_record_teachers o w :
  store_calls (record_call teachers_collection o w) = store_calls w.
Proof.
  unfold store_calls, record_call. simpl.
  rewrite omap_app. simpl. by rewrite app_nil_r.
Qed.

Lemma store_calls_record_announcements o w :
  store_calls (record_call announcements_collection o w)
  = store_calls w ++ [o].
Proof. unfold store_calls, record_call. simpl. by rewrite omap_app. Qed.

End gate.

(** ** The representation handed to callers *)

Section representation.
Implicit Types (d a : doc) (c : list doc) (key : string).

Lemma exposed_id d : exposed d !! "id" = Some (VStr (py_str (Collection.id_of d))).
Proof. unfold exposed. by rewrite lookup_insert_eq. Qed.

Lemma exposed_no_storage_key d : exposed d !! "_id" = None.
Proof.
  unfold exposed. rewrite lookup_insert_ne by done. apply lookup_delete_eq.
Qed.

Lemma exposed_field d key :
  key ≠ "id" → key ≠ "_id" → exposed d !! key = d !! key.
Proof.
  intros ??. unfold exposed.
  rewrite lookup_insert_ne by done. by rewrite lookup_delete_ne.
Qed.

Lemma pop_id_keyed d : is_Some (d !! "_id") → pop_id d = Return (exposed d).
Proof.
  intros [k Hk]. unfold pop_id, exposed, Collection.id_of. by rewrite Hk.
Qed.

Lemma pop_ids_keyed c : keyed c → pop_ids c = Return (exposed <$> c).
Proof.
  induction 1 as [|d c Hd _ IH]; simpl; [done|].
  by rewrite (pop_id_keyed _ Hd), IH.
Qed.

Lemma keyed_find q c : keyed c → keyed (Collection.find q c).
Proof.
  unfold keyed, Collection.find.
  induction 1 as [|d c Hd _ IH]; simpl; [constructor|].
  destruct (matches q d); [by constructor|done].
Qed.

Lemma elem_of_find q c d :
  d ∈ Collection.find q c ↔ d ∈ c ∧ matches q d = true.
Proof.
  unfold Collection.find. rewrite !list_elem_of_In. apply filter_In.
Qed.

Lemma same_but_start_date_lookup d1 d2 key :
  same_but_start_date d1 d2 → key ≠ "start_date" → d1 !! key = d2 !! key.
Proof.
  intros H Hkey.
  rewrite <-(lookup_delete_ne d1 "start_date" key) by done.
  rewrite <-(lookup_delete_ne d2 "start_date" key) by done.
  by rewrite H.
Qed.

Lemma same_but_start_date_matches now d1 d2 :
  same_but_start_date d1 d2 →
  matches (FieldGte "expiration" now) d1 = matches (FieldGte "expiration" now) d2.
Proof.
  intros H. simpl.
  by rewrite (same_but_start_date_lookup d1 d2 "expiration" H).
Qed.

Lemma same_but_start_date_exposed d1 d2 :
  same_but_start_date d1 d2 → same_but_start_date (exposed d1) (exposed d2).
Proof.
  intros H. unfold same_but_start_date, exposed, Collection.id_of.
  rewrite (same_but_start_date_lookup d1 d2 "_id" H) by done.
  rewrite !delete_insert_ne by done.
  rewrite !(delete_delete _ "start_date" "_id"). by rewrite H.
Qed.

Lemma same_but_start_date_find now c1 c2 :
  Forall2 same_but_start_date c1 c2 →
  Forall2 same_but_start_date
    (Collection.find (FieldGte "expiration" now) c1)
    (Collection.find (FieldGte "expiration" now) c2).
Proof.
  unfold Collection.find.
  induction 1 as [|d1 d2 c1 c2 Hd _ IH]; [constructor|].
  cbn [List.filter]. rewrite (same_but_start_date_matches now _ _ Hd).
  destruct (matches _ d2); [by constructor|done].
Qed.

Lemma same_but_start_date_keyed c1 c2 :
  Forall2 same_but_start_date c1 c2 → keyed c1 → keyed c2.
Proof.
  unfold keyed. induction 1 as [|d1 d2 c1 c2 Hd _ IH]; [done|].
  intros [H1 Hc]%Forall_cons. constructor; [|by apply IH].
  by rewrite <-(same_but_start_date_lookup d1 d2 "_id" Hd).
Qed.

(** [GET /announcements] on a store whose documents carry their key. *)
Lemma get_announcements_keyed now w :
  keyed (announcements w) →
  get_announcements now w
  = (Return (exposed <$> Collection.find (FieldGte "expiration" now)
                                         (announcements w)),
     record_call announcements_collection
                 (Find (FieldGte "expiration" now)) w).
Proof.
  intros Hk. unfold get_announcements, mbind, M_bind, find, lift. simpl.
  by rewrite (pop_ids_keyed _ (keyed_find _ _ Hk)).
Qed.

End representation.

(** ** The handlers, case by case *)

Section handlers.
Implicit Types (w : world) (d teacher : doc) (c : list doc).
Implicit Types (message : option string) (expiration start_date : option Z).

Lemma update_fields_message message expiration start_date :
  update_fields_of message expiration start_date !! "message" = VStr <$> message.
Proof. by destruct message, expiration, start_date. Qed.

Lemma update_fields_expiration message expiration start_date :
  update_fields_of message expiration start_date !! "expiration"
  = VDate <$> expiration.
Proof. by destruct message, expiration, start_date. Qed.

Lemma update_fields_start_date message expiration start_date :
  update_fields_of message expiration start_date !! "start_date"
  = VDate <$> start_date.
Proof. by destruct message, expiration, start_date. Qed.

Lemma update_fields_other message expiration start_date key :
  key ≠ "message" → key ≠ "expiration" → key ≠ "start_date" →
  update_fields_of message expiration start_date !! key = None.
Proof.
  intros ???. unfold update_fields_of, set_if.
  destruct message, expiration, start_date;
    by rewrite ?lookup_insert_ne, ?lookup_empty by done.
Qed.

Lemma update_fields_empty message expiration start_date :
  update_fields_of message expiration start_date = ∅
  ↔ message = None ∧ expiration = None ∧ start_date = None.
Proof.
  split; [|by intros (-> & -> & ->)].
  intros H. split_and!.
  - pose proof (update_fields_message message expiration start_date) as E.
    rewrite H, lookup_empty in E. by destruct message.
  - pose proof (update_fields_expiration message expiration start_date) as E.
    rewrite H, lookup_empty in E. by destruct expiration.
  - pose proof (update_fields_start_date message expiration start_date) as E.
    rewrite H, lookup_empty in E. by destruct start_date.
Qed.

(** The patched document, field by field. *)
Lemma patched_lookup message expiration start_date d key :
  (update_fields_of message expiration start_date ∪ d) !! key
  = match update_fields_of message expiration start_date !! key with
    | Some v => Some v
    | None => d !! key
    end.
Proof.
  destruct (update_fields_of _ _ _ !! key) as [v|] eqn:E.
  - by apply lookup_union_Some_l.
  - by rewrite lookup_union_r.
Qed.

Lemma update_announcement_no_fields announcement_id teacher w :
  update_announcement announcement_id None None None teacher w
  = (Raise NoFieldsToUpdate, w).
Proof. done. Qed.

Lemma update_announcement_not_found
    announcement_id message expiration start_date teacher w :
  update_fields_of message expiration start_date ≠ ∅ →
  stored (VStr announcement_id) w = None →
  update_announcement announcement_id message expiration start_date teacher w
  = (Raise NotFound,
     record_call announcements_collection
       (UpdateOne (ById (VStr announcement_id))
                  (update_fields_of message expiration start_date)) w).
Proof.
  intros Hne Hnone%find_one_None. unfold update_announcement, not_dict.
  rewrite bool_decide_eq_false_2 by done.
  unfold mbind, M_bind, update_one. simpl.
  rewrite (update_one_none _ _ _ Hnone). simpl. by destruct w.
Qed.

Lemma update_announcement_found
    announcement_id message expiration start_date teacher w d :
  let fields := update_fields_of message expiration start_date in
  fields ≠ ∅ →
  stored (VStr announcement_id) w = Some d →
  ∃ c1 c2,
    announcements w = c1 ++ d :: c2 ∧
    Forall (λ x, x !! "_id" ≠ Some (VStr announcement_id)) c1 ∧
    update_announcement announcement_id message expiration start_date teacher w
    = (Return (exposed (fields ∪ d)),
       record_call announcements_collection
         (FindOne (ById (VStr announcement_id)))
         (record_call announcements_collection
            (UpdateOne (ById (VStr announcement_id)) fields)
            (set_contents announcements_collection
               (c1 ++ (fields ∪ d) :: c2) w))).
Proof.
  intros fields Hne (c1 & c2 & Hc & Hd & Hc1)%find_one_Some.
  exists c1, c2. split; [done|]. split.
  { eapply Forall_impl; [exact Hc1|]. intros x. by rewrite not_matches_ById. }
  assert (fields !! "_id" = None) as Hid
    by (by apply update_fields_other).
  unfold update_announcement, not_dict. fold fields.
  rewrite bool_decide_eq_false_2 by done.
  unfold mbind, M_bind, update_one, find_one. simpl.
  rewrite Hc, (update_one_app _ _ _ _ _ Hc1 Hd). simpl.
  rewrite (find_one_app _ _ _ Hc1). cbn [Collection.find_one].
  rewrite (matches_ById_set _ _ _ Hid), Hd. unfold lift.
  rewrite pop_id_keyed; [done|].
  rewrite lookup_union_r by done. apply matches_ById in Hd. by rewrite Hd.
Qed.

Lemma delete_announcement_not_found announcement_id teacher w :
  stored (VStr announcement_id) w = None →
  delete_announcement announcement_id teacher w
  = (Raise NotFound,
     record_call announcements_collection
       (DeleteOne (ById (VStr announcement_id))) w).
Proof.
  intros Hnone%find_one_None.
  unfold delete_announcement, mbind, M_bind, delete_one. simpl.
  rewrite (delete_one_none _ _ Hnone). simpl. by destruct w.
Qed.

Lemma delete_announcement_found announcement_id teacher w d :
  stored (VStr announcement_id) w = Some d →
  ∃ c1 c2,
    announcements w = c1 ++ d :: c2 ∧
    Forall (λ x, x !! "_id" ≠ Some (VStr announcement_id)) c1 ∧
    delete_announcement announcement_id teacher w
    = (Return {[ "success" := VBool true ]},
       record_call announcements_collection
         (DeleteOne (ById (VStr announcement_id)))
         (set_contents announcements_collection (c1 ++ c2) w)).
Proof.
  intros (c1 & c2 & Hc & Hd & Hc1)%find_one_Some.
  exists c1, c2. split; [done|]. split.
  { eapply Forall_impl; [exact Hc1|]. intros x. by rewrite not_matches_ById. }
  unfold delete_announcement, mbind, M_bind, delete_one. simpl.
  by rewrite Hc, (delete_one_app _ _ _ _ Hc1 Hd).
Qed.

Lemma create_announcement_fresh oid (m : string) (e : Z) start_date teacher w :
  stored (VOid oid) w = None →
  create_announcement oid m e start_date teacher w
  = (Return (<["id" := VStr oid]> (created oid m e start_date)),
     record_call announcements_collection
       (InsertOne (created oid m e start_date))
       (set_contents announcements_collection
          (announcements w ++ [created oid m e start_date]) w)).
Proof.
  intros Hfresh. unfold stored in Hfresh.
  unfold create_announcement, mbind, M_bind, insert_one,
    Collection.insert_one, Collection.with_id, Collection.id_of.
  cbn [contents].
  replace (({["message" := VStr m; "expiration" := VDate e;
              "start_date" := opt_date start_date]} : doc) !! "_id")
    with (@None value) by done.
  fold (created oid m e start_date).
  replace (created oid m e start_date !! "_id") with (Some (VOid oid)) by done.
  simpl. by rewrite Hfresh.
Qed.

End handlers.

(** ** The example world *)

Lemma keyed_school : keyed (announcements school).
Proof. repeat constructor; by eexists. Qed.

Lemma alice_is_authenticated (w : world) :
  teachers w = [alice] → authenticated (Some "alice") w.
Proof.
  intros Ht. exists "alice". split_and!; [done..|].
  exists alice. rewrite Ht. split; [by apply list_elem_of_singleton|done].
Qed.

Lemma stranger_to_school (u : string) :
  u ≠ "alice" → ¬ in_directory u school.
Proof.
  intros Hu (t & Ht & Hid). apply list_elem_of_singleton in Ht as ->.
  assert (alice !! "_id" = Some (VStr "alice")) as E by reflexivity.
  rewrite E in Hid. by injection Hid as <-.
Qed.

Lemma welcome_is_stored : stored (VStr "welcome") school = Some welcome.
Proof. reflexivity. Qed.

Lemma farewell_is_unknown :
  ∀ d : doc, d ∈ announcements school → d !! "_id" ≠ Some (VStr "farewell").
Proof. by apply find_one_ById_None. Qed.

Lemma new_oid_is_fresh :
  ∀ d : doc, d ∈ announcements school →
             d !! "_id" ≠ Some (VOid "65f1c0ffee0000000000000b").
Proof. by apply find_one_ById_None. Qed.

(** ** The Authentication Gate in front of the mutating operations *)

(** C10. A caller identifier that is the empty string is treated like an
    absent one: every mutating operation fails with [Unauthenticated],
    which is not [InvalidCaller], and the world is left as it was, so
    no call reached the Identity Directory, whatever it holds. *)
Theorem C10_empty_caller_is_unauthenticated (r : mutation) (w : world) :
  serve r (Some "") w = (Raise Unauthenticated, w)
  ∧ serve r (Some "") w = serve r None w
  ∧ calls (serve r (Some "") w).2 = calls w
  ∧ Unauthenticated ≠ InvalidCaller.
Proof.
  assert (serve r (Some "") w = (Raise Unauthenticated, w)) as E
    by apply serve_refused, require_auth_empty.
  split_and!; [done| |by rewrite E|done].
  rewrite E. symmetry. apply serve_refused, require_auth_absent.
Qed.

(** C2, as stated, fails: the empty string is an identifier, it is
    absent from the directory of [school], and Delete called with it
    fails with [Unauthenticated], not with [InvalidCaller]. *)
Lemma C2_empty_identifier_is_not_invalid_caller :
  ¬ (∀ (r : mutation) (u : string) (w : world),
       ¬ in_directory u w → (serve r (Some u) w).1 = Raise InvalidCaller).
Proof.
  intros H.
  specialize (H (Delete "welcome") "" school (stranger_to_school "" ltac:(done))).
  by rewrite (serve_refused _ _ _ _ _ (require_auth_empty school)) in H.
Qed.

(** C2, amended. For every mutating operation: with no caller
    identifier it fails with [Unauthenticated] and the world is
    untouched; with a non-empty identifier that is absent from the
    Identity Directory it fails with [InvalidCaller], the store is
    unchanged and no call was made on it; and List Active, which takes
    no caller identifier, succeeds without a call on the directory. *)
Theorem C2_gate_before_any_write
    (r : mutation) (u : string) (now : Z) (w : world) :
  u ≠ "" → ¬ in_directory u w → keyed (announcements w) →
  serve r None w = (Raise Unauthenticated, w)
  ∧ (∃ w', serve r (Some u) w = (Raise InvalidCaller, w')
           ∧ announcements w' = announcements w
           ∧ store_calls w' = store_calls w)
  ∧ (∃ anns w', list_active now w = (Return anns, w')
                ∧ calls w' = calls w ++ [(announcements_collection,
                                          Find (FieldGte "expiration" now))]).
Proof.
  intros Hu Hdir Hk. split_and!.
  - apply serve_refused, require_auth_absent.
  - eexists. split; [apply serve_refused, require_auth_unknown; done|].
    split; [done|]. apply store_calls_record_teachers.
  - unfold list_active. rewrite (get_announcements_keyed _ _ Hk).
    by eexists _, _.
Qed.

Lemma C2_gate_before_any_write_witness :
  ∃ w', serve (Create "65f1c0ffee0000000000000b" "Exam Friday" 700 None)
              (Some "mallory") school = (Raise InvalidCaller, w')
        ∧ announcements w' = announcements school
        ∧ store_calls w' = store_calls school.
Proof.
  refine (proj1 (proj2 (C2_gate_before_any_write
    (Create "65f1c0ffee0000000000000b" "Exam Friday" 700 None)
    "mallory" 50 school _ _ _))).
  - done.
  - by apply stranger_to_school.
  - apply keyed_school.
Defined.

(** The gate has three outcomes, and which one it is depends on the
    caller identifier and the directory alone. *)
Lemma gate_cases (username : option string) (w : world) :
  authenticated username w
  ∨ (¬ authenticated username w
     ∧ require_auth username w = (Raise Unauthenticated, w))
  ∨ (¬ authenticated username w
     ∧ ∃ u, require_auth username w
            = (Raise InvalidCaller,
               record_call teachers_collection (FindOne (ById (VStr u))) w)).
Proof.
  destruct username as [u|].
  - destruct (decide (u = "")) as [->|Hu].
    + right; left. split; [|done]. by intros (? & [= <-] & ? & _).
    + destruct (Collection.find_one (ById (VStr u)) (teachers w)) as [t|] eqn:E.
      * left. exists u. split_and!; [done..|].
        apply in_directory_find_one. by exists t.
      * assert (¬ in_directory u w) as Hdir.
        { intros (t & Ht)%in_directory_find_one. congruence. }
        right; right. split.
        -- by intros (? & [= <-] & _ & ?).
        -- exists u. by apply require_auth_unknown.
  - right; left. split; [|done]. by intros (? & [=] & _).
Qed.

(** C4, as stated, fails: an Update with no fields and no caller
    identifier fails with [Unauthenticated], not [NoFieldsToUpdate]. *)
Lemma C4_gate_precedes_the_empty_patch :
  ¬ (∀ (announcement_id : string) (username : option string) (w : world),
       (serve (Update announcement_id None None None) username w).1
       = Raise NoFieldsToUpdate).
Proof.
  intros H. specialize (H "welcome" None school).
  by rewrite (serve_refused _ _ _ _ _ (require_auth_absent school)) in H.
Qed.

(** C4, amended. For every id and every caller, an Update that supplies
    none of the optional fields leaves the store unchanged and makes no
    call on it; for a caller that passes the Authentication Gate it
    fails with [NoFieldsToUpdate], and for a caller the gate refuses it
    fails with the gate's [Unauthenticated] or [InvalidCaller]. *)
Theorem C4_empty_patch_leaves_the_store
    (announcement_id : string) (username : option string) (w : world) :
  let r := serve (Update announcement_id None None None) username w in
  announcements r.2 = announcements w
  ∧ store_calls r.2 = store_calls w
  ∧ (authenticated username w → r.1 = Raise NoFieldsToUpdate)
  ∧ (¬ authenticated username w →
     r.1 = Raise Unauthenticated ∨ r.1 = Raise InvalidCaller).
Proof.
  intros r. subst r.
  destruct (gate_cases username w) as [Ha|[[Hn E]|[Hn [u E]]]].
  - destruct (serve_admitted (Update announcement_id None None None)
                _ _ Ha) as (teacher & u & -> & E).
    rewrite E. cbn [handler_of]. rewrite update_announcement_no_fields.
    split_and!; [done|apply store_calls_record_teachers|done|done].
  - rewrite (serve_refused _ _ _ _ _ E). split_and!; [done..|by left].
  - rewrite (serve_refused _ _ _ _ _ E).
    split_and!; [done|apply store_calls_record_teachers|done|by right].
Qed.

Lemma C4_empty_patch_leaves_the_store_witness :
  (serve (Update "welcome" None None None) (Some "alice") school).1
  = Raise NoFieldsToUpdate.
Proof.
  refine (proj1 (proj2 (proj2 (C4_empty_patch_leaves_the_store
    "welcome" (Some "alice") school))) _).
  by apply alice_is_authenticated.
Defined.

(** ** Update *)

(** C6. For every authenticated caller and every id under which the
    store holds no announcement, an Update that supplies at least one
    optional field fails with [NotFound] and leaves the store
    unchanged. *)
Theorem C6_update_of_unknown_id_is_not_found
    (announcement_id : string) (message : option string)
    (expiration start_date : option Z) (username : option string)
    (w : world) :
  authenticated username w →
  is_Some message ∨ is_Some expiration ∨ is_Some start_date →
  (∀ d : doc, d ∈ announcements w → d !! "_id" ≠ Some (VStr announcement_id)) →
  ∃ w', serve (Update announcement_id message expiration start_date) username w
        = (Raise NotFound, w')
        ∧ announcements w' = announcements w.
Proof.
  intros Ha Hsome Hnone%find_one_ById_None.
  destruct (serve_admitted
              (Update announcement_id message expiration start_date)
              _ _ Ha) as (teacher & u & -> & E).
  rewrite E. cbn [handler_of].
  rewrite update_announcement_not_found; [by eexists| |done].
  rewrite update_fields_empty. intros (-> & -> & ->).
  by destruct Hsome as [[? [=]]|[[? [=]]|[? [=]]]].
Qed.

Lemma C6_update_of_unknown_id_is_not_found_witness :
  ∃ w', serve (Update "farewell" (Some "Goodbye") None None)
              (Some "alice") school
        = (Raise NotFound, w')
        ∧ announcements w' = announcements school.
Proof.
  apply C6_update_of_unknown_id_is_not_found.
  - by apply alice_is_authenticated.
  - left. by eexists.
  - apply farewell_is_unknown.
Defined.

(** What an Update can do to the store: nothing, or the patch of the
    first document that carries the id as its key. *)
Lemma update_store_cases
    (announcement_id : string) (message : option string)
    (expiration start_date : option Z) (username : option string)
    (w : world) :
  let fields := update_fields_of message expiration start_date in
  let w' := (serve (Update announcement_id message expiration start_date)
                   username w).2 in
  announcements w' = announcements w
  ∨ ∃ c1 d c2, stored (VStr announcement_id) w = Some d
               ∧ announcements w = c1 ++ d :: c2
               ∧ announcements w' = c1 ++ (fields ∪ d) :: c2.
Proof.
  intros fields w'. subst w'.
  destruct (gate_cases username w) as [Ha|[[_ E]|[_ [u E]]]].
  - destruct (serve_admitted
                (Update announcement_id message expiration start_date)
                _ _ Ha) as (teacher & u & -> & ->).
    cbn [handler_of].
    destruct (decide (fields = ∅)) as [Hempty|Hne].
    { pose proof Hempty as (-> & -> & ->)%update_fields_empty.
      rewrite update_announcement_no_fields. by left. }
    destruct (stored (VStr announcement_id) w) as [d|] eqn:Hd.
    + destruct (update_announcement_found announcement_id message expiration
                  start_date teacher
                  (record_call teachers_collection (FindOne (ById (VStr u))) w)
                  d Hne Hd) as (c1 & c2 & Hc & _ & ->).
      right. by exists c1, d, c2.
    + rewrite update_announcement_not_found by done. by left.
  - rewrite (serve_refused _ _ _ _ _ E). by left.
  - rewrite (serve_refused _ _ _ _ _ E). by left.
Qed.

(** Update is a merge-patch of the document stored under the string
    key.  Whatever the caller, the id and the subset of message,
    expiration and start_date that is supplied, an Update leaves every
    field that was not supplied, of every stored announcement, at its
    prior value.  For a caller that passes the gate and the document
    [d] that the store holds under the key that is the string
    [announcement_id], the store stays as it was but for [d], which
    becomes [d']: every supplied field holds the supplied value, every
    field that was not supplied and every other field holds what [d]
    held.  In particular an Update of the message alone keeps
    expiration and start_date. *)
Theorem update_is_a_merge_patch_under_a_string_key
    (announcement_id : string) (message : option string)
    (expiration start_date : option Z) (username : option string)
    (w : world) :
  let fields := update_fields_of message expiration start_date in
  let w' := (serve (Update announcement_id message expiration start_date)
                   username w).2 in
  Forall2 (λ x x' : doc, ∀ key, fields !! key = None → x' !! key = x !! key)
          (announcements w) (announcements w')
  ∧ ∀ d : doc,
      authenticated username w →
      stored (VStr announcement_id) w = Some d →
      ∃ c1 c2 d',
        announcements w = c1 ++ d :: c2
        ∧ announcements w' = c1 ++ d' :: c2
        ∧ d' !! "message"
          = match message with
            | Some m => Some (VStr m)
            | None => d !! "message"
            end
        ∧ d' !! "expiration"
          = match expiration with
            | Some e => Some (VDate e)
            | None => d !! "expiration"
            end
        ∧ d' !! "start_date"
          = match start_date with
            | Some s => Some (VDate s)
            | None => d !! "start_date"
            end
        ∧ (∀ key, key ≠ "message" → key ≠ "expiration" →
                  key ≠ "start_date" → d' !! key = d !! key).
Proof.
  intros fields w'.
  pose proof (update_store_cases announcement_id message expiration
                start_date username w) as Hcases.
  cbv zeta in Hcases. fold fields w' in Hcases. split.
  - destruct Hcases as [->|(c1 & d & c2 & _ & -> & ->)].
    + by apply Forall_Forall2_diag, Forall_true.
    + apply Forall2_app; [by apply Forall_Forall2_diag, Forall_true|].
      constructor; [|by apply Forall_Forall2_diag, Forall_true].
      intros key Hkey. by rewrite lookup_union_r.
  - intros d Ha Hd.
    assert (∃ c1 c2, announcements w = c1 ++ d :: c2
                     ∧ announcements w' = c1 ++ (fields ∪ d) :: c2)
      as (c1 & c2 & Hc & Hc').
    { destruct Hcases as [E|(c1 & d0 & c2 & Hd0 & Hc & Hc')].
      - destruct (serve_admitted
                    (Update announcement_id message expiration start_date)
                    _ _ Ha) as (teacher & u & -> & Es).
        subst w'. rewrite Es in E |- *. cbn [handler_of] in E |- *.
        destruct (decide (fields = ∅)) as [Hempty|Hne].
        + rewrite Hempty, (left_id_L ∅ (∪)), E.
          apply find_one_Some in Hd as (c1 & c2 & Hc & _). by exists c1, c2.
        + destruct (update_announcement_found announcement_id message
                      expiration start_date teacher
                      (record_call teachers_collection
                         (FindOne (ById (VStr u))) w)
                      d Hne Hd) as (c1 & c2 & Hc & _ & Eu).
          rewrite Eu in E |- *. by exists c1, c2.
      - rewrite Hd in Hd0. injection Hd0 as <-. by exists c1, c2. }
    exists c1, c2, (fields ∪ d). subst fields.
    split_and!; [done..| | | |].
    + rewrite patched_lookup, update_fields_message. by destruct message.
    + rewrite patched_lookup, update_fields_expiration. by destruct expiration.
    + rewrite patched_lookup, update_fields_start_date. by destruct start_date.
    + intros key ???. by rewrite patched_lookup, update_fields_other.
Qed.

Lemma update_is_a_merge_patch_under_a_string_key_witness :
  ∃ c1 c2 d',
    announcements school = c1 ++ welcome :: c2
    ∧ announcements
        (serve (Update "welcome" (Some "Welcome, class of 2030") None None)
               (Some "alice") school).2 = c1 ++ d' :: c2
    ∧ d' !! "message" = Some (VStr "Welcome, class of 2030")
    ∧ d' !! "expiration" = welcome !! "expiration"
    ∧ d' !! "start_date" = welcome !! "start_date"
    ∧ (∀ key, key ≠ "message" → key ≠ "expiration" → key ≠ "start_date" →
              d' !! key = welcome !! key).
Proof.
  refine (proj2 (update_is_a_merge_patch_under_a_string_key "welcome"
                   (Some "Welcome, class of 2030") None None (Some "alice")
                   school) welcome _ _).
  - by apply alice_is_authenticated.
  - apply welcome_is_stored.
Defined.

(** C3 fails on the announcements that Create makes.  Create stores the
    announcement under an [ObjectId] and returns its string as the id;
    an Update of the message by that id asks [update_one] for the
    string as the key, matches nothing and fails with [NotFound]: the
    supplied message is not written, and the stored announcement keeps
    the message it was created with. *)
Theorem C3_update_by_the_id_create_returned_is_not_found :
  let oid := "65f1c0ffee0000000000000b" in
  let created_by_alice :=
    serve (Create oid "Exam Friday" 700 None) (Some "alice") school in
  let updated :=
    serve (Update oid (Some "Exam moved to Monday") None None) (Some "alice")
          created_by_alice.2 in
  (∃ ann, created_by_alice.1 = Return ann
          ∧ ann !! "id" = Some (VStr oid)
          ∧ ann !! "message" = Some (VStr "Exam Friday"))
  ∧ updated.1 = Raise NotFound
  ∧ announcements updated.2 = announcements created_by_alice.2
  ∧ (∃ d, stored (VOid oid) updated.2 = Some d
          ∧ d !! "message" = Some (VStr "Exam Friday")).
Proof.
  intros oid created_by_alice updated. split_and!.
  - exists (<["id" := VStr oid]> (created oid "Exam Friday" 700 None)).
    split_and!; reflexivity.
  - reflexivity.
  - reflexivity.
  - exists (created oid "Exam Friday" 700 None). split; reflexivity.
Qed.

(** C8. For an id under which the store holds an announcement [d], an
    Update with at least one field by a caller that passes the gate
    succeeds and returns the post-update announcement as the store
    holds it after the write.  The handler writes, then reads back by
    the same key; after the write the store holds, in the place of [d],
    the document [d'] that is [d] with the supplied fields written over
    it; the lookup by the id finds [d'], and the result is [d'] with its
    storage key replaced by ["id"] holding the id as a string.  So the
    result carries the supplied values in the supplied fields and, in
    every other field, what the store held, whether the request named
    it or not. *)
Theorem C8_update_returns_the_document_read_back
    (announcement_id : string) (message : option string)
    (expiration start_date : option Z) (username : option string)
    (w : world) (d : doc) :
  authenticated username w →
  is_Some message ∨ is_Some expiration ∨ is_Some start_date →
  stored (VStr announcement_id) w = Some d →
  let d' := update_fields_of message expiration start_date ∪ d in
  ∃ u c1 c2 w',
    username = Some u
    ∧ announcements w = c1 ++ d :: c2
    ∧ serve (Update announcement_id message expiration start_date) username w
      = (Return (exposed d'), w')
    ∧ announcements w' = c1 ++ d' :: c2
    ∧ stored (VStr announcement_id) w' = Some d'
    ∧ calls w'
      = calls w ++
        [(teachers_collection, FindOne (ById (VStr u)));
         (announcements_collection,
          UpdateOne (ById (VStr announcement_id))
                    (update_fields_of message expiration start_date));
         (announcements_collection, FindOne (ById (VStr announcement_id)))]
    ∧ exposed d' !! "id" = Some (VStr announcement_id)
    ∧ exposed d' !! "_id" = None
    ∧ exposed d' !! "message"
      = match message with Some m => Some (VStr m) | None => d !! "message" end
    ∧ exposed d' !! "expiration"
      = match expiration with
        | Some e => Some (VDate e)
        | None => d !! "expiration"
        end
    ∧ exposed d' !! "start_date"
      = match start_date with
        | Some s => Some (VDate s)
        | None => d !! "start_date"
        end
    ∧ (∀ key, key ≠ "id" → key ≠ "_id" → key ≠ "message" →
              key ≠ "expiration" → key ≠ "start_date" →
              exposed d' !! key = d !! key).
Proof.
  intros Ha Hsome Hd d'.
  destruct (serve_admitted
              (Update announcement_id message expiration start_date)
              _ _ Ha) as (teacher & u & -> & E).
  rewrite E. cbn [handler_of]. clear E.
  set (fields := update_fields_of message expiration start_date) in *.
  assert (fields ≠ ∅) as Hne.
  { subst fields. rewrite update_fields_empty. intros (-> & -> & ->).
    by destruct Hsome as [[? [=]]|[[? [=]]|[? [=]]]]. }
  assert (fields !! "_id" = None) as Hid by (by apply update_fields_other).
  pose proof Hd as (_ & _ & _ & Hm & _)%find_one_Some.
  destruct (update_announcement_found announcement_id message expiration
              start_date teacher
              (record_call teachers_collection (FindOne (ById (VStr u))) w)
              d Hne Hd) as (c1 & c2 & Hc & Hc1 & ->).
  fold fields. fold d'. exists u, c1, c2. eexists.
  split_and!; [done|done|done|done| | | | | | | |].
  - unfold stored. cbn [announcements record_call set_contents].
    rewrite find_one_app.
    + cbn [Collection.find_one]. unfold d'.
      by rewrite (matches_ById_set _ _ _ Hid), Hm.
    + eapply Forall_impl; [exact Hc1|]. intros x. by rewrite not_matches_ById.
  - cbn. by rewrite <-!(assoc_L (++)).
  - rewrite exposed_id. unfold Collection.id_of, d'.
    rewrite lookup_union_r by done. apply matches_ById in Hm. by rewrite Hm.
  - apply exposed_no_storage_key.
  - rewrite exposed_field by done. unfold d', fields.
    rewrite patched_lookup, update_fields_message. by destruct message.
  - rewrite exposed_field by done. unfold d', fields.
    rewrite patched_lookup, update_fields_expiration. by destruct expiration.
  - rewrite exposed_field by done. unfold d', fields.
    rewrite patched_lookup, update_fields_start_date. by destruct start_date.
  - intros key ?????. rewrite exposed_field by done. unfold d', fields.
    by rewrite patched_lookup, update_fields_other.
Qed.

Lemma C8_update_returns_the_document_read_back_witness :
  ∃ u c1 c2 w',
    Some "alice" = Some u
    ∧ announcements school = c1 ++ welcome :: c2
    ∧ serve (Update "welcome" None (Some 200) None) (Some "alice") school
      = (Return (exposed (update_fields_of None (Some 200) None ∪ welcome)), w')
    ∧ announcements w'
      = c1 ++ (update_fields_of None (Some 200) None ∪ welcome) :: c2
    ∧ stored (VStr "welcome") w'
      = Some (update_fields_of None (Some 200) None ∪ welcome)
    ∧ calls w'
      = calls school ++
        [(teachers_collection, FindOne (ById (VStr u)));
         (announcements_collection,
          UpdateOne (ById (VStr "welcome"))
                    (update_fields_of None (Some 200) None));
         (announcements_collection, FindOne (ById (VStr "welcome")))]
    ∧ exposed (update_fields_of None (Some 200) None ∪ welcome) !! "id"
      = Some (VStr "welcome")
    ∧ exposed (update_fields_of None (Some 200) None ∪ welcome) !! "_id" = None
    ∧ exposed (update_fields_of None (Some 200) None ∪ welcome) !! "message"
      = welcome !! "message"
    ∧ exposed (update_fields_of None (Some 200) None ∪ welcome) !! "expiration"
      = Some (VDate 200)
    ∧ exposed (update_fields_of None (Some 200) None ∪ welcome) !! "start_date"
      = welcome !! "start_date"
    ∧ (∀ key, key ≠ "id" → key ≠ "_id" → key ≠ "message" →
              key ≠ "expiration" → key ≠ "start_date" →
              exposed (update_fields_of None (Some 200) None ∪ welcome) !! key
              = welcome !! key).
Proof.
  apply (C8_update_returns_the_document_read_back "welcome"
           None (Some 200) None (Some "alice") school welcome).
  - by apply alice_is_authenticated.
  - right; left. by eexists.
  - apply welcome_is_stored.
Defined.

(** ** Create *)

(** C9. For every caller that passes the gate and every message,
    expiration and optional start_date, whatever they are (nothing is
    required of the message, of the expiration or of their order),
    Create succeeds when the driver's new [ObjectId] is not yet a key of
    the store: the store gains exactly the one new document at its end,
    and the result carries the message, the expiration, the start_date
    ([None] when absent) and, under ["id"], the new key as a string. *)
Theorem C9_create_inserts_one_and_returns_it
    (oid : string) (message : string) (expiration : Z)
    (start_date : option Z) (username : option string) (w : world) :
  authenticated username w →
  (∀ d : doc, d ∈ announcements w → d !! "_id" ≠ Some (VOid oid)) →
  ∃ ann w',
    serve (Create oid message expiration start_date) username w
    = (Return ann, w')
    ∧ ann = <["id" := VStr oid]> (created oid message expiration start_date)
    ∧ announcements w'
      = announcements w ++ [created oid message expiration start_date]
    ∧ ann !! "id" = Some (VStr oid)
    ∧ ann !! "message" = Some (VStr message)
    ∧ ann !! "expiration" = Some (VDate expiration)
    ∧ ann !! "start_date"
      = Some (match start_date with Some s => VDate s | None => VNone end).
Proof.
  intros Ha Hfresh%find_one_ById_None.
  destruct (serve_admitted (Create oid message expiration start_date)
              _ _ Ha) as (teacher & u & -> & E).
  rewrite E. cbn [handler_of].
  rewrite create_announcement_fresh by done.
  eexists _, _. split_and!; [done..|by destruct start_date].
Qed.

Lemma C9_create_inserts_one_and_returns_it_witness :
  ∃ ann w',
    serve (Create "65f1c0ffee0000000000000b" "" 0 (Some 9)) (Some "alice") school
    = (Return ann, w')
    ∧ ann = <["id" := VStr "65f1c0ffee0000000000000b"]>
              (created "65f1c0ffee0000000000000b" "" 0 (Some 9))
    ∧ announcements w'
      = announcements school ++ [created "65f1c0ffee0000000000000b" "" 0 (Some 9)]
    ∧ ann !! "id" = Some (VStr "65f1c0ffee0000000000000b")
    ∧ ann !! "message" = Some (VStr "")
    ∧ ann !! "expiration" = Some (VDate 0)
    ∧ ann !! "start_date" = Some (VDate 9).
Proof.
  apply (C9_create_inserts_one_and_returns_it
           "65f1c0ffee0000000000000b" "" 0 (Some 9) (Some "alice") school).
  - by apply alice_is_authenticated.
  - apply new_oid_is_fresh.
Defined.

(** ** List Active *)

(** C1. On a store whose documents carry their key, List Active makes
    one query with the one reading [now] of the clock and returns the
    representations of the stored announcements that match it: an
    announcement with expiration [e] appears in the result exactly when
    [now ≤ e], nothing else appears, and two stores that differ only in
    the stored start_date fields give results that differ only in those
    fields, so the start_date plays no part in the selection. *)
Theorem C1_list_active_selects_by_expiration (now : Z) (w : world) :
  keyed (announcements w) →
  ∃ anns,
    list_active now w
    = (Return anns,
       record_call announcements_collection
                   (Find (FieldGte "expiration" now)) w)
    ∧ (∀ (d : doc) (e : Z),
         d ∈ announcements w → d !! "expiration" = Some (VDate e) →
         exposed d ∈ anns ↔ now ≤ e)
    ∧ (∀ a : doc, a ∈ anns → ∃ d, d ∈ announcements w ∧ a = exposed d)
    ∧ (∀ w', Forall2 same_but_start_date (announcements w) (announcements w') →
             ∃ anns', (list_active now w').1 = Return anns'
                      ∧ Forall2 same_but_start_date anns anns').
Proof.
  intros Hk. unfold list_active. rewrite (get_announcements_keyed _ _ Hk).
  eexists. split; [done|]. split_and!.
  - intros d e Hd He. rewrite list_elem_of_fmap. split.
    + intros (d' & Hdd' & (_ & Hm)%elem_of_find).
      assert (d' !! "expiration" = Some (VDate e)) as He'.
      { rewrite <-(exposed_field d' "expiration"), <-Hdd' by done.
        by rewrite exposed_field. }
      simpl in Hm. rewrite He' in Hm. lia.
    + intros Hle. exists d. split; [done|]. apply elem_of_find.
      split; [done|]. simpl. rewrite He. lia.
  - intros a (d & -> & (Hd & _)%elem_of_find)%list_elem_of_fmap. by exists d.
  - intros w' Hw'.
    rewrite (get_announcements_keyed _ _ (same_but_start_date_keyed _ _ Hw' Hk)).
    eexists. split; [done|]. apply Forall2_fmap.
    eapply Forall2_impl; [by apply same_but_start_date_find|].
    apply same_but_start_date_exposed.
Qed.

Lemma C1_list_active_selects_by_expiration_witness :
  ∃ anns,
    list_active 50 school
    = (Return anns,
       record_call announcements_collection
                   (Find (FieldGte "expiration" 50)) school)
    ∧ (∀ (d : doc) (e : Z),
         d ∈ announcements school → d !! "expiration" = Some (VDate e) →
         exposed d ∈ anns ↔ 50 ≤ e)
    ∧ (∀ a : doc, a ∈ anns → ∃ d, d ∈ announcements school ∧ a = exposed d)
    ∧ (∀ w', Forall2 same_but_start_date (announcements school)
                     (announcements w') →
             ∃ anns', (list_active 50 w').1 = Return anns'
                      ∧ Forall2 same_but_start_date anns anns').
Proof. apply (C1_list_active_selects_by_expiration 50 school), keyed_school. Defined.

(** ** The storage key in what the operations return *)

(** What List Active returns has no ["_id"] and has a string ["id"]. *)
Lemma listed_hide_the_storage_key (now : Z) (w : world) (anns : list doc) w' :
  list_active now w = (Return anns, w') →
  ∀ a : doc, a ∈ anns → a !! "_id" = None ∧ ∃ s, a !! "id" = Some (VStr s).
Proof.
  unfold list_active, get_announcements, mbind, M_bind, find, lift. simpl.
  generalize (Collection.find (FieldGte "expiration" now) (announcements w)).
  intros c [= E _]. revert anns E.
  induction c as [|d c IH]; simpl; intros anns E a Ha.
  - injection E as <-. by apply elem_of_nil in Ha.
  - unfold pop_id in E. destruct (d !! "_id") as [k|] eqn:Hk; [|done].
    destruct (pop_ids c) as [anns'|]; [|done]. injection E as <-.
    apply elem_of_cons in Ha as [->|Ha]; [|by apply (IH anns')].
    split.
    + rewrite lookup_insert_ne by done. apply lookup_delete_eq.
    + eexists. apply lookup_insert_eq.
Qed.

(** C5 fails on Create.  [insert_one] puts the new [_id] into the dict
    it is given, and [create_announcement] returns that dict after
    adding ["id"]: the result exposes ["id"] as a string and, next to
    it, the storage key ["_id"] holding the [ObjectId].  List Active and
    Update take the key out with [pop]. *)
Theorem C5_create_returns_the_storage_key :
  ∃ ann w',
    serve (Create "65f1c0ffee0000000000000b" "Exam Friday" 700 None)
          (Some "alice") school
    = (Return ann, w')
    ∧ ann !! "id" = Some (VStr "65f1c0ffee0000000000000b")
    ∧ ann !! "_id" = Some (VOid "65f1c0ffee0000000000000b").
Proof.
  destruct (serve_admitted
              (Create "65f1c0ffee0000000000000b" "Exam Friday" 700 None)
              (Some "alice") school (alice_is_authenticated school eq_refl))
    as (teacher & u & _ & ->).
  cbn [handler_of]. rewrite create_announcement_fresh; [by eexists _, _|].
  apply find_one_ById_None, new_oid_is_fresh.
Qed.

(** ** Delete *)

(** Delete by a key that is a string: [NotFound] exactly when the store
    holds nothing under it, and otherwise the one document goes. *)
Lemma delete_unknown_string_key (announcement_id : string)
    (username : option string) (w : world) :
  authenticated username w →
  stored (VStr announcement_id) w = None →
  ∃ w', serve (Delete announcement_id) username w = (Raise NotFound, w')
        ∧ announcements w' = announcements w.
Proof.
  intros Ha Hnone.
  destruct (serve_admitted (Delete announcement_id) _ _ Ha)
    as (teacher & u & -> & ->).
  cbn [handler_of]. rewrite delete_announcement_not_found by done.
  by eexists.
Qed.

(** Delete of an announcement stored under a string key, by a caller
    that passes the gate, on a store with unique keys: the request
    returns [{"success": True}], the store loses that one document and
    keeps the others in their order, and the lookup by the id then
    finds nothing. *)
Lemma delete_known_string_key (announcement_id : string)
    (username : option string) (w : world) (d : doc) :
  authenticated username w →
  NoDup ((.!! "_id") <$> announcements w) →
  stored (VStr announcement_id) w = Some d →
  ∃ c1 c2 w',
    announcements w = c1 ++ d :: c2
    ∧ serve (Delete announcement_id) username w
      = (Return {[ "success" := VBool true ]}, w')
    ∧ announcements w' = c1 ++ c2
    ∧ stored (VStr announcement_id) w' = None.
Proof.
  intros Ha Hnodup Hd.
  destruct (serve_admitted (Delete announcement_id) _ _ Ha)
    as (teacher & u & -> & ->).
  cbn [handler_of].
  pose proof Hd as (_ & _ & _ & Hm%matches_ById & _)%find_one_Some.
  destruct (delete_announcement_found announcement_id teacher
              (record_call teachers_collection (FindOne (ById (VStr u))) w)
              d Hd) as (c1 & c2 & Hc & Hc1 & ->).
  cbn [announcements record_call] in Hc.
  exists c1, c2. eexists. split_and!; [done..|].
  unfold stored. cbn [announcements record_call set_contents].
  apply find_one_ById_None. intros x [Hx|Hx]%elem_of_app Hxid.
  - rewrite Forall_forall in Hc1. by apply (Hc1 x).
  - rewrite Hc, fmap_app, fmap_cons in Hnodup.
    apply NoDup_app in Hnodup as (_ & _ & [Hnot _]%NoDup_cons).
    apply Hnot, list_elem_of_fmap. exists x. by rewrite Hm, Hxid.
Qed.

(** C7 fails on the announcements that Create makes.  The store holds
    them under an [ObjectId], callers know them by its string, and
    [delete_one] is asked for the string as the key: Delete by the id
    that Create returned fails with [NotFound], the store keeps the
    announcement, and List Active goes on showing it under that id. *)
Theorem C7_delete_by_the_id_create_returned_is_not_found :
  let oid := "65f1c0ffee0000000000000b" in
  let created_by_alice :=
    serve (Create oid "Exam Friday" 700 None) (Some "alice") school in
  let deleted := serve (Delete oid) (Some "alice") created_by_alice.2 in
  let listed := list_active 50 deleted.2 in
  (∃ ann, created_by_alice.1 = Return ann ∧ ann !! "id" = Some (VStr oid))
  ∧ deleted.1 = Raise NotFound
  ∧ announcements deleted.2 = announcements created_by_alice.2
  ∧ (∃ anns a, listed.1 = Return anns ∧ a ∈ anns
               ∧ a !! "id" = Some (VStr oid)
               ∧ a !! "message" = Some (VStr "Exam Friday")).
Proof.
  intros oid created_by_alice deleted listed. split_and!.
  - exists (<["id" := VStr oid]> (created oid "Exam Friday" 700 None)).
    split; reflexivity.
  - reflexivity.
  - reflexivity.
  - exists [exposed welcome; exposed (created oid "Exam Friday" 700 None)],
           (exposed (created oid "Exam Friday" 700 None)).
    split_and!; [reflexivity| |reflexivity..].
    apply list_elem_of_further, list_elem_of_here.
Qed.

(** * Further properties of the handlers *)

(** ** Every way a mutating request can go *)

Lemma create_announcement_taken oid (m : string) (e : Z) start_date
    (teacher : doc) (w : world) :
  is_Some (stored (VOid oid) w) →
  create_announcement oid m e start_date teacher w
  = (Raise DuplicateKeyError,
     record_call announcements_collection
       (InsertOne (created oid m e start_date)) w).
Proof.
  intros [x Hx]. unfold stored in Hx.
  unfold create_announcement, mbind, M_bind, insert_one,
    Collection.insert_one, Collection.with_id, Collection.id_of.
  cbn [contents].
  replace (({["message" := VStr m; "expiration" := VDate e;
              "start_date" := opt_date start_date]} : doc) !! "_id")
    with (@None value) by done.
  fold (created oid m e start_date).
  replace (created oid m e start_date !! "_id") with (Some (VOid oid)) by done.
  simpl. by rewrite Hx.
Qed.

(** The gate, then the handler: the three ways through the gate. *)
Lemma serve_inv (r : mutation) (username : option string) (w : world) :
  (¬ authenticated username w
   ∧ serve r username w = (Raise Unauthenticated, w))
  ∨ (¬ authenticated username w
     ∧ ∃ u, username = Some u
            ∧ serve r username w
              = (Raise InvalidCaller,
                 record_call teachers_collection (FindOne (ById (VStr u))) w))
  ∨ (authenticated username w
     ∧ ∃ u teacher,
         username = Some u
         ∧ serve r username w
           = handler_of r teacher
               (record_call teachers_collection (FindOne (ById (VStr u))) w)).
Proof.
  destruct username as [u|].
  - destruct (decide (u = "")) as [->|Hu].
    + left. split; [by intros (? & [= <-] & ? & _)|].
      apply serve_refused, require_auth_empty.
    + destruct (Collection.find_one (ById (VStr u)) (teachers w)) as [t|] eqn:E.
      * assert (authenticated (Some u) w) as Ha.
        { exists u. split_and!; [done..|].
          apply in_directory_find_one. by exists t. }
        right; right. split; [done|].
        destruct (serve_admitted r _ _ Ha) as (teacher & u' & [= <-] & Es).
        by exists u, teacher.
      * assert (¬ in_directory u w) as Hdir.
        { intros (t & Ht)%in_directory_find_one. congruence. }
        right; left. split; [by intros (? & [= <-] & _ & ?)|].
        exists u. split; [done|].
        by apply serve_refused, require_auth_unknown.
  - left. split; [by intros (? & [=] & _)|].
    apply serve_refused, require_auth_absent.
Qed.

(** The ways through each handler, with the world each one leaves. *)
Lemma create_announcement_inv oid (m : string) (e : Z) start_date
    (teacher : doc) (w : world) :
  (stored (VOid oid) w = None
   ∧ create_announcement oid m e start_date teacher w
     = (Return (<["id" := VStr oid]> (created oid m e start_date)),
        record_call announcements_collection
          (InsertOne (created oid m e start_date))
          (set_contents announcements_collection
             (announcements w ++ [created oid m e start_date]) w)))
  ∨ (is_Some (stored (VOid oid) w)
     ∧ create_announcement oid m e start_date teacher w
       = (Raise DuplicateKeyError,
          record_call announcements_collection
            (InsertOne (created oid m e start_date)) w)).
Proof.
  destruct (stored (VOid oid) w) as [x|] eqn:E.
  - right. split; [by eexists|]. apply create_announcement_taken.
    rewrite E. by eexists.
  - left. split; [done|]. by apply create_announcement_fresh.
Qed.

Lemma update_announcement_inv announcement_id (message : option string)
    (expiration start_date : option Z) (teacher : doc) (w : world) :
  let fields := update_fields_of message expiration start_date in
  let run := update_announcement announcement_id message expiration
               start_date teacher w in
  (fields = ∅ ∧ run = (Raise NoFieldsToUpdate, w))
  ∨ (fields ≠ ∅ ∧ stored (VStr announcement_id) w = None
     ∧ run = (Raise NotFound,
              record_call announcements_collection
                (UpdateOne (ById (VStr announcement_id)) fields) w))
  ∨ (fields ≠ ∅
     ∧ ∃ c1 d c2,
         stored (VStr announcement_id) w = Some d
         ∧ announcements w = c1 ++ d :: c2
         ∧ Forall (λ x : doc, x !! "_id" ≠ Some (VStr announcement_id)) c1
         ∧ run = (Return (exposed (fields ∪ d)),
                  record_call announcements_collection
                    (FindOne (ById (VStr announcement_id)))
                    (record_call announcements_collection
                       (UpdateOne (ById (VStr announcement_id)) fields)
                       (set_contents announcements_collection
                          (c1 ++ (fields ∪ d) :: c2) w)))).
Proof.
  intros fields run. subst run.
  destruct (decide (fields = ∅)) as [Hempty|Hne].
  - left. split; [done|].
    pose proof Hempty as (-> & -> & ->)%update_fields_empty.
    apply update_announcement_no_fields.
  - destruct (stored (VStr announcement_id) w) as [d|] eqn:Hd.
    + right; right. split; [done|].
      destruct (update_announcement_found announcement_id message expiration
                  start_date teacher w d Hne Hd) as (c1 & c2 & Hc & Hc1 & E).
      by exists c1, d, c2.
    + right; left. split_and!; [done..|].
      by apply update_announcement_not_found.
Qed.

Lemma delete_announcement_inv announcement_id (teacher : doc) (w : world) :
  let run := delete_announcement announcement_id teacher w in
  (stored (VStr announcement_id) w = None
   ∧ run = (Raise NotFound,
            record_call announcements_collection
              (DeleteOne (ById (VStr announcement_id))) w))
  ∨ (∃ c1 d c2,
       stored (VStr announcement_id) w = Some d
       ∧ announcements w = c1 ++ d :: c2
       ∧ Forall (λ x : doc, x !! "_id" ≠ Some (VStr announcement_id)) c1
       ∧ run = (Return {[ "success" := VBool true ]},
                record_call announcements_collection
                  (DeleteOne (ById (VStr announcement_id)))
                  (set_contents announcements_collection (c1 ++ c2) w))).
Proof.
  intros run. subst run.
  destruct (stored (VStr announcement_id) w) as [d|] eqn:Hd.
  - right.
    destruct (delete_announcement_found announcement_id teacher w d Hd)
      as (c1 & c2 & Hc & Hc1 & E).
    by exists c1, d, c2.
  - left. split; [done|]. by apply delete_announcement_not_found.
Qed.

(** The directory decides who passes the gate, and nothing else does. *)
Lemma authenticated_same_directory (username : option string) (w w' : world) :
  teachers w' = teachers w → authenticated username w → authenticated username w'.
Proof.
  intros Ht (u & -> & Hu & (t & Hin & Hid)).
  exists u. split_and!; [done..|]. exists t. by rewrite Ht.
Qed.

Lemma find_one_snoc (q : filter) (c : list doc) (d : doc) :
  Collection.find_one q (c ++ [d])
  = match Collection.find_one q c with
    | Some x => Some x
    | None => if matches q d then Some d else None
    end.
Proof.
  induction c as [|x c IH]; simpl; [done|]. by destruct (matches q x).
Qed.

Lemma find_app (q : filter) (c1 c2 : list doc) :
  Collection.find q (c1 ++ c2) = Collection.find q c1 ++ Collection.find q c2.
Proof. apply List.filter_app. Qed.

(** ** The gate and the directory *)

(** When the gate lets a caller through, what it returns is a record of
    the directory whose key is the caller identifier, the identifier is
    not empty, neither collection has changed, and the one call made is
    the lookup of that identifier in the directory. *)
Theorem gate_returns_the_directory_record
    (username : option string) (w : world) (teacher : doc) (w' : world) :
  require_auth username w = (Return teacher, w') →
  ∃ u, username = Some u ∧ u ≠ ""
       ∧ teacher ∈ teachers w ∧ teacher !! "_id" = Some (VStr u)
       ∧ announcements w' = announcements w ∧ teachers w' = teachers w
       ∧ calls w' = calls w ++ [(teachers_collection, FindOne (ById (VStr u)))].
Proof.
  destruct username as [u|]; [|by rewrite require_auth_absent].
  destruct (decide (u = "")) as [->|Hu]; [by rewrite require_auth_empty|].
  unfold require_auth, not_str. rewrite bool_decide_eq_false_2 by done.
  unfold mbind, M_bind, find_one. simpl.
  destruct (Collection.find_one _ _) as [t|] eqn:E; simpl; [|done].
  apply find_one_Some in E as (c1 & c2 & Hc & Hm%matches_ById & _).
  unfold not_dict. rewrite bool_decide_eq_false_2.
  - intros [= <- <-]. exists u. split_and!; [done..| |done|done|done|done].
    rewrite Hc. set_solver.
  - intros ->. by rewrite lookup_empty in Hm.
Qed.

Lemma gate_returns_the_directory_record_witness :
  ∃ u, Some "alice" = Some u ∧ u ≠ ""
       ∧ alice ∈ teachers school ∧ alice !! "_id" = Some (VStr u)
       ∧ announcements
           (record_call teachers_collection (FindOne (ById (VStr "alice"))) school)
         = announcements school
       ∧ teachers
           (record_call teachers_collection (FindOne (ById (VStr "alice"))) school)
         = teachers school
       ∧ calls
           (record_call teachers_collection (FindOne (ById (VStr "alice"))) school)
         = calls school ++ [(teachers_collection, FindOne (ById (VStr u)))].
Proof.
  apply (gate_returns_the_directory_record (Some "alice") school alice).
  reflexivity.
Defined.

(** No mutating request, served to whatever caller and however it ends,
    changes the Identity Directory. *)
Theorem mutations_never_write_the_directory
    (r : mutation) (username : option string) (w : world) :
  teachers (serve r username w).2 = teachers w.
Proof.
  destruct (serve_inv r username w)
    as [[_ ->]|[[_ (u & _ & ->)]|[_ (u & teacher & _ & ->)]]]; [done..|].
  set (w0 := record_call teachers_collection (FindOne (ById (VStr u))) w).
  destruct r as [oid m e s|id m e s|id]; cbn [handler_of].
  - by destruct (create_announcement_inv oid m e s teacher w0)
      as [[_ ->]|[_ ->]].
  - by destruct (update_announcement_inv id m e s teacher w0)
      as [[_ ->]|[(_ & _ & ->)|(_ & c1 & d & c2 & _ & _ & _ & ->)]].
  - by destruct (delete_announcement_inv id teacher w0)
      as [[_ ->]|(c1 & d & c2 & _ & _ & _ & ->)].
Qed.

(** ** Failures *)

(** The gate in front of any handler: the three ways through it. *)
Lemma Depends_require_auth_inv {A} (handler : doc → M A)
    (username : option string) (w : world) :
  Depends_require_auth handler username w = (Raise Unauthenticated, w)
  ∨ (∃ u, Depends_require_auth handler username w
          = (Raise InvalidCaller,
             record_call teachers_collection (FindOne (ById (VStr u))) w))
  ∨ (authenticated username w
     ∧ ∃ u teacher,
         username = Some u
         ∧ Depends_require_auth handler username w
           = handler teacher
               (record_call teachers_collection (FindOne (ById (VStr u))) w)).
Proof.
  unfold Depends_require_auth.
  destruct (gate_cases username w) as [Ha|[[_ E]|[_ [u E]]]].
  - right; right. split; [done|].
    destruct (require_auth_known _ _ Ha) as (teacher & u & -> & E).
    exists u, teacher. split; [done|]. by apply bind_Return.
  - left. by apply bind_Raise.
  - right; left. exists u. by apply bind_Raise.
Qed.

(** The ways through Update when other requests are served between its
    write and its re-read: what the re-read finds is what the others
    left under the key. *)
Lemma update_announcement_amid_inv (others : world → world)
    announcement_id (message : option string)
    (expiration start_date : option Z) (teacher : doc) (w : world) :
  let fields := update_fields_of message expiration start_date in
  let run := update_announcement_amid others announcement_id message
               expiration start_date teacher w in
  (fields = ∅ ∧ run = (Raise NoFieldsToUpdate, w))
  ∨ (fields ≠ ∅ ∧ stored (VStr announcement_id) w = None
     ∧ run = (Raise NotFound,
              record_call announcements_collection
                (UpdateOne (ById (VStr announcement_id)) fields) w))
  ∨ (fields ≠ ∅
     ∧ ∃ c1 d c2,
         stored (VStr announcement_id) w = Some d
         ∧ announcements w = c1 ++ d :: c2
         ∧ Forall (λ x : doc, x !! "_id" ≠ Some (VStr announcement_id)) c1
         ∧ run
           = let w1 :=
               others
                 (record_call announcements_collection
                    (UpdateOne (ById (VStr announcement_id)) fields)
                    (set_contents announcements_collection
                       (c1 ++ (fields ∪ d) :: c2) w)) in
             (match stored (VStr announcement_id) w1 with
              | Some x => Return (exposed x)
              | None => Raise AttributeError
              end,
              record_call announcements_collection
                (FindOne (ById (VStr announcement_id))) w1)).
Proof.
  intros fields run. subst run.
  destruct (decide (fields = ∅)) as [Hempty|Hne].
  { left. split; [done|]. unfold update_announcement_amid, not_dict.
    fold fields. by rewrite bool_decide_eq_true_2. }
  destruct (stored (VStr announcement_id) w) as [d|] eqn:Hd.
  - right; right. split; [done|].
    apply find_one_Some in Hd as (c1 & c2 & Hc & Hm & Hc1).
    exists c1, d, c2. split_and!; [done|done| |].
    { eapply Forall_impl; [exact Hc1|]. intros x. by rewrite not_matches_ById. }
    unfold update_announcement_amid, not_dict. fold fields.
    rewrite bool_decide_eq_false_2 by done.
    unfold mbind, M_bind, update_one, meanwhile, find_one. simpl.
    rewrite Hc, (update_one_app _ _ _ _ _ Hc1 Hm). simpl.
    unfold stored.
    destruct (Collection.find_one _ _) as [x|] eqn:Hx; [|done].
    unfold lift. rewrite pop_id_keyed; [done|].
    apply find_one_Some in Hx as (_ & _ & _ & Hxm%matches_ById & _).
    by rewrite Hxm.
  - right; left. split_and!; [done..|].
    apply find_one_None in Hd.
    unfold update_announcement_amid, not_dict. fold fields.
    rewrite bool_decide_eq_false_2 by done.
    unfold mbind, M_bind, update_one. simpl.
    rewrite (update_one_none _ _ _ Hd). simpl. by destruct w.
Qed.

(** With no other request in between, Update amid others is Update. *)
Lemma serve_amid_nothing (r : mutation) (username : option string) (w : world) :
  serve_amid (λ w0, w0) r username w = serve r username w.
Proof.
  unfold serve_amid, serve, Depends_require_auth, mbind, M_bind.
  destruct (require_auth username w) as [[teacher|e] w0]; [|done].
  by destruct r.
Qed.

(** A mutating request that fails by the handlers' own doing has
    changed nothing in the store, and fails in one of five ways: this
    holds when the other requests served between Update's write and its
    re-read leave the announcements alone.  The store's calls are the
    calls of the model: they are answered, and the one refusal is that
    of a key that is taken.  Under that condition the re-read of Update
    finds the document it wrote, and no [KeyError] or [AttributeError]
    comes out of a handler. *)
Theorem failed_mutation_leaves_the_store
    (others : world → world) (r : mutation) (username : option string)
    (w : world) (e : exn) (w' : world) :
  (∀ w0, announcements (others w0) = announcements w0) →
  serve_amid others r username w = (Raise e, w') →
  announcements w' = announcements w
  ∧ (e = Unauthenticated ∨ e = InvalidCaller ∨ e = NoFieldsToUpdate
     ∨ e = NotFound ∨ e = DuplicateKeyError).
Proof.
  intros Hothers. unfold serve_amid.
  destruct (Depends_require_auth_inv (handler_of_amid others r) username w)
    as [->|[(u & ->)|(_ & u & teacher & _ & ->)]].
  - intros [= <- <-]. auto.
  - intros [= <- <-]. auto.
  - set (w0 := record_call teachers_collection (FindOne (ById (VStr u))) w).
    destruct r as [oid m ex s|id m ex s|id]; cbn [handler_of_amid handler_of].
    + destruct (create_announcement_inv oid m ex s teacher w0)
        as [[_ ->]|[_ ->]]; [done|]. intros [= <- <-]. auto 10.
    + destruct (update_announcement_amid_inv others id m ex s teacher w0)
        as [[_ ->]|[(_ & _ & ->)|(_ & c1 & d & c2 & Hd & Hc & Hc1 & ->)]].
      * intros [= <- <-]. auto 10.
      * intros [= <- <-]. auto 10.
      * cbv zeta. unfold stored. rewrite Hothers.
        cbn [announcements record_call set_contents].
        rewrite find_one_app.
        -- cbn [Collection.find_one].
           rewrite matches_ById_set by (by apply update_fields_other).
           apply find_one_Some in Hd as (_ & _ & _ & -> & _). done.
        -- eapply Forall_impl; [exact Hc1|]. intros x.
           by rewrite not_matches_ById.
    + destruct (delete_announcement_inv id teacher w0)
        as [[_ ->]|(c1 & d & c2 & _ & _ & _ & ->)]; [|done].
      intros [= <- <-]. auto 10.
Qed.

Lemma failed_mutation_leaves_the_store_witness :
  announcements
    (record_call announcements_collection
       (UpdateOne (ById (VStr "65f1c0ffee0000000000000a"))
                  (update_fields_of (Some "Bake sale moved") None None))
       (record_call teachers_collection (FindOne (ById (VStr "alice"))) school))
  = announcements school
  ∧ (NotFound = Unauthenticated ∨ NotFound = InvalidCaller
     ∨ NotFound = NoFieldsToUpdate ∨ NotFound = NotFound
     ∨ NotFound = DuplicateKeyError).
Proof.
  apply (failed_mutation_leaves_the_store (λ w0, w0)
           (Update "65f1c0ffee0000000000000a" (Some "Bake sale moved")
                   None None)
           (Some "alice") school).
  - done.
  - reflexivity.
Defined.

(** When another request deletes the announcement between Update's
    write and its re-read, the re-read finds nothing and the handler
    fails on [ann.pop] with [AttributeError], not with [NotFound]: the
    write and the delete have both reached the store by then, and the
    announcement is gone. *)
Theorem update_amid_a_delete_fails_on_the_reread
    (announcement_id : string) (message : option string)
    (expiration start_date : option Z) (username : option string)
    (w : world) (d : doc) :
  authenticated username w →
  is_Some message ∨ is_Some expiration ∨ is_Some start_date →
  NoDup ((.!! "_id") <$> announcements w) →
  stored (VStr announcement_id) w = Some d →
  ∃ c1 c2 w',
    announcements w = c1 ++ d :: c2
    ∧ serve_amid
        (λ w0, (delete_one announcements_collection
                           (ById (VStr announcement_id)) w0).2)
        (Update announcement_id message expiration start_date) username w
      = (Raise AttributeError, w')
    ∧ announcements w' = c1 ++ c2
    ∧ stored (VStr announcement_id) w' = None
    ∧ store_calls w'
      = store_calls w ++
        [UpdateOne (ById (VStr announcement_id))
                   (update_fields_of message expiration start_date);
         DeleteOne (ById (VStr announcement_id));
         FindOne (ById (VStr announcement_id))].
Proof.
  intros Ha Hsome Hn Hd. unfold serve_amid.
  set (others := λ w0, (delete_one announcements_collection
                                   (ById (VStr announcement_id)) w0).2).
  set (fields := update_fields_of message expiration start_date).
  destruct (require_auth_known _ _ Ha) as (teacher & u & -> & Ek).
  unfold Depends_require_auth. rewrite (bind_Return _ _ _ _ _ Ek).
  cbn [handler_of_amid].
  set (w0 := record_call teachers_collection (FindOne (ById (VStr u))) w).
  destruct (update_announcement_amid_inv others announcement_id message
              expiration start_date teacher w0)
    as [[He _]|[(_ & Hnone & _)|(_ & c1 & d0 & c2 & Hd0 & Hc & Hc1 & ->)]].
  - apply update_fields_empty in He as (-> & -> & ->).
    by destruct Hsome as [[? [=]]|[[? [=]]|[? [=]]]].
  - unfold stored in Hnone, Hd. cbn [announcements record_call w0] in Hnone.
    congruence.
  - assert (d0 = d) as ->.
    { unfold stored in Hd0, Hd. cbn [announcements record_call w0] in Hd0.
      congruence. }
    cbn [announcements record_call w0] in Hc.
    pose proof Hd as (_ & _ & _ & Hm & _)%find_one_Some.
    fold fields. cbv zeta.
    assert (Forall (λ x, matches (ById (VStr announcement_id)) x = false) c1)
      as Hc1'.
    { eapply Forall_impl; [exact Hc1|]. intros x. by rewrite not_matches_ById. }
    assert (matches (ById (VStr announcement_id)) (fields ∪ d) = true) as Hm'.
    { rewrite matches_ById_set; [done|]. by apply update_fields_other. }
    assert (Collection.find_one (ById (VStr announcement_id)) (c1 ++ c2) = None)
      as Hgone.
    { apply find_one_ById_None. intros x [Hx|Hx]%elem_of_app Hxid.
      - rewrite Forall_forall in Hc1. by apply (Hc1 x).
      - rewrite Hc, fmap_app, fmap_cons in Hn.
        apply NoDup_app in Hn as (_ & _ & [Hnot _]%NoDup_cons).
        apply matches_ById in Hm.
        apply Hnot, list_elem_of_fmap. exists x. by rewrite Hm, Hxid. }
    unfold others, delete_one, stored.
    cbn [contents announcements record_call set_contents].
    rewrite (delete_one_app _ _ _ _ Hc1' Hm').
    cbn [snd announcements record_call set_contents]. rewrite Hgone.
    exists c1, c2. eexists. split_and!; [done|done|done|done|].
    unfold store_calls. cbn [calls record_call set_contents w0].
    rewrite !omap_app. cbn. by rewrite app_nil_r, <-!(assoc_L (++)).
Qed.

Lemma update_amid_a_delete_fails_on_the_reread_witness :
  ∃ c1 c2 w',
    announcements school = c1 ++ welcome :: c2
    ∧ serve_amid
        (λ w0, (delete_one announcements_collection
                           (ById (VStr "welcome")) w0).2)
        (Update "welcome" (Some "Welcome, class of 2030") None None)
        (Some "alice") school
      = (Raise AttributeError, w')
    ∧ announcements w' = c1 ++ c2
    ∧ stored (VStr "welcome") w' = None
    ∧ store_calls w'
      = store_calls school ++
        [UpdateOne (ById (VStr "welcome"))
                   (update_fields_of (Some "Welcome, class of 2030") None None);
         DeleteOne (ById (VStr "welcome"));
         FindOne (ById (VStr "welcome"))].
Proof.
  apply (update_amid_a_delete_fails_on_the_reread "welcome"
           (Some "Welcome, class of 2030") None None (Some "alice")
           school welcome).
  - by apply alice_is_authenticated.
  - left. by eexists.
  - apply NoDup_cons. split; [|apply NoDup_singleton].
    intros H. apply list_elem_of_singleton in H.
    assert (welcome !! "_id" = Some (VStr "welcome")) as E1 by reflexivity.
    assert (bake_sale !! "_id" = Some (VOid "65f1c0ffee0000000000000a")) as E2
      by reflexivity.
    cbn in H. rewrite E1, E2 in H. discriminate H.
  - apply welcome_is_stored.
Defined.

(** ** What the store keeps *)

(** Every stored document carries a key and no two carry the same one:
    whatever the request and the caller, served on a store like that, it
    leaves a store like that. *)
Theorem mutations_keep_the_keys_unique
    (r : mutation) (username : option string) (w : world) :
  keyed (announcements w) →
  NoDup ((.!! "_id") <$> announcements w) →
  keyed (announcements (serve r username w).2)
  ∧ NoDup ((.!! "_id") <$> announcements (serve r username w).2).
Proof.
  intros Hk Hn.
  destruct (serve_inv r username w)
    as [[_ ->]|[[_ (u & _ & ->)]|[_ (u & teacher & _ & ->)]]]; [done..|].
  set (w0 := record_call teachers_collection (FindOne (ById (VStr u))) w).
  destruct r as [oid m e s|id m e s|id]; cbn [handler_of].
  - destruct (create_announcement_inv oid m e s teacher w0)
      as [[Hfresh ->]|[_ ->]]; [|done].
    cbn [announcements record_call set_contents snd w0].
    assert (created oid m e s !! "_id" = Some (VOid oid)) as Hid by done.
    split.
    + apply Forall_app. split; [done|]. constructor; [|done]. by eexists.
    + rewrite fmap_app. apply NoDup_app. split_and!; [done| |].
      * intros k Hk1 Hk2. cbn in Hk2. apply list_elem_of_singleton in Hk2.
        apply list_elem_of_fmap in Hk1 as (x & Hx & Hin).
        apply (proj1 (find_one_ById_None _ _) Hfresh x Hin). congruence.
      * apply NoDup_singleton.
  - destruct (update_announcement_inv id m e s teacher w0)
      as [[_ ->]|[(_ & _ & ->)|(_ & c1 & d & c2 & _ & Hc & _ & ->)]];
      [done..|].
    cbn [announcements record_call set_contents snd w0] in Hc |- *.
    assert ((update_fields_of m e s ∪ d) !! "_id" = d !! "_id") as Hsame.
    { rewrite lookup_union_r; [done|]. by apply update_fields_other. }
    rewrite Hc in Hk, Hn. split.
    + unfold keyed in Hk |- *. rewrite Forall_app, Forall_cons in Hk |- *.
      by rewrite Hsame.
    + by rewrite fmap_app, fmap_cons, Hsame, <-fmap_cons, <-fmap_app.
  - destruct (delete_announcement_inv id teacher w0)
      as [[_ ->]|(c1 & d & c2 & _ & Hc & _ & ->)]; [done|].
    cbn [announcements record_call set_contents snd w0] in Hc |- *.
    rewrite Hc in Hk, Hn. split.
    + unfold keyed in Hk |- *. rewrite Forall_app, Forall_cons in Hk.
      rewrite Forall_app. tauto.
    + rewrite fmap_app, fmap_cons in Hn. rewrite fmap_app.
      apply NoDup_app in Hn as (H1 & H2 & [_ H3]%NoDup_cons).
      apply NoDup_app. split_and!; [done| |done].
      intros k Hk1 Hk2. apply (H2 k Hk1). by right.
Qed.

Lemma mutations_keep_the_keys_unique_witness :
  keyed (announcements
           (serve (Create "65f1c0ffee0000000000000b" "Exam Friday" 700 None)
                  (Some "alice") school).2)
  ∧ NoDup ((.!! "_id") <$>
           announcements
             (serve (Create "65f1c0ffee0000000000000b" "Exam Friday" 700 None)
                    (Some "alice") school).2).
Proof.
  apply (mutations_keep_the_keys_unique
           (Create "65f1c0ffee0000000000000b" "Exam Friday" 700 None)
           (Some "alice") school).
  - apply keyed_school.
  - apply NoDup_cons. split; [|apply NoDup_singleton].
    intros H. apply list_elem_of_singleton in H.
    assert (welcome !! "_id" = Some (VStr "welcome")) as E1 by reflexivity.
    assert (bake_sale !! "_id" = Some (VOid "65f1c0ffee0000000000000a")) as E2
      by reflexivity.
    cbn in H. rewrite E1, E2 in H. discriminate H.
Defined.

(** ** Update, again *)

(** An Update never changes a key: whatever it is given and however it
    ends, the store holds the same keys in the same order afterwards,
    so no announcement appears, disappears or changes its id. *)
Theorem update_never_changes_a_key
    (announcement_id : string) (message : option string)
    (expiration start_date : option Z) (username : option string)
    (w : world) :
  (.!! "_id") <$> announcements
      (serve (Update announcement_id message expiration start_date)
             username w).2
  = (.!! "_id") <$> announcements w.
Proof.
  destruct (update_store_cases announcement_id message expiration start_date
              username w) as [->|(c1 & d & c2 & _ & -> & ->)]; [done|].
  rewrite !fmap_app, !fmap_cons. do 2 f_equal.
  rewrite lookup_union_r; [done|]. by apply update_fields_other.
Qed.

(** An Update that succeeded can be repeated: the same request on the
    world it left succeeds again, returns the same announcement and
    leaves the store as the first one left it. *)
Theorem repeating_an_update_changes_nothing
    (announcement_id : string) (message : option string)
    (expiration start_date : option Z) (username : option string)
    (w : world) (ann : doc) (w' : world) :
  serve (Update announcement_id message expiration start_date) username w
  = (Return ann, w') →
  ∃ w'',
    serve (Update announcement_id message expiration start_date) username w'
    = (Return ann, w'')
    ∧ announcements w'' = announcements w'.
Proof.
  set (fields := update_fields_of message expiration start_date).
  destruct (serve_inv (Update announcement_id message expiration start_date)
              username w)
    as [[_ ->]|[[_ (u & _ & ->)]|[Ha (u & teacher & -> & ->)]]]; [done..|].
  cbn [handler_of].
  set (w0 := record_call teachers_collection (FindOne (ById (VStr u))) w).
  destruct (update_announcement_inv announcement_id message expiration
              start_date teacher w0)
    as [[_ ->]|[(_ & _ & ->)|(Hne & c1 & d & c2 & Hd & Hc & Hc1 & ->)]];
    [done..|].
  fold fields in Hne |- *. intros [= <- <-].
  assert (fields !! "_id" = None) as Hid by (by apply update_fields_other).
  pose proof Hd as (_ & _ & _ & Hm & _)%find_one_Some.
  match goal with |- ∃ _, serve _ _ ?x = _ ∧ _ => set (w1 := x) end.
  assert (authenticated (Some u) w1) as Ha1
    by (by apply (authenticated_same_directory _ w)).
  destruct (serve_admitted
              (Update announcement_id message expiration start_date)
              _ _ Ha1) as (teacher1 & u1 & [= <-] & ->).
  cbn [handler_of].
  set (w2 := record_call teachers_collection (FindOne (ById (VStr u))) w1).
  assert (stored (VStr announcement_id) w2 = Some (fields ∪ d)) as Hd2.
  { unfold stored. cbn [announcements record_call set_contents w2 w1].
    rewrite find_one_app.
    - cbn [Collection.find_one].
      by rewrite (matches_ById_set _ _ _ Hid), Hm.
    - eapply Forall_impl; [exact Hc1|]. intros x. by rewrite not_matches_ById. }
  destruct (update_announcement_found announcement_id message expiration
              start_date teacher1 w2 (fields ∪ d) Hne Hd2)
    as (c1' & c2' & Hc' & Hc1' & ->).
  fold fields.
  assert (fields ∪ (fields ∪ d) = fields ∪ d) as ->.
  { apply map_eq. intros key. rewrite !lookup_union.
    by destruct (fields !! key), (d !! key). }
  eexists. split; [done|].
  cbn [announcements record_call set_contents w2 w1] in Hc' |- *.
  by rewrite Hc'.
Qed.

Lemma repeating_an_update_changes_nothing_witness :
  ∃ w'',
    serve (Update "welcome" None (Some 200) None) (Some "alice")
          (serve (Update "welcome" None (Some 200) None) (Some "alice")
                 school).2
    = (Return (exposed (update_fields_of None (Some 200) None ∪ welcome)), w'')
    ∧ announcements w''
      = announcements
          (serve (Update "welcome" None (Some 200) None) (Some "alice")
                 school).2.
Proof.
  apply (repeating_an_update_changes_nothing "welcome" None (Some 200) None
           (Some "alice") school).
  reflexivity.
Defined.

(** ** Delete, again *)

Lemma delete_known_string_key_witness :
  ∃ c1 c2 w',
    announcements school = c1 ++ welcome :: c2
    ∧ serve (Delete "welcome") (Some "alice") school
      = (Return {[ "success" := VBool true ]}, w')
    ∧ announcements w' = c1 ++ c2
    ∧ stored (VStr "welcome") w' = None.
Proof.
  apply (delete_known_string_key "welcome" (Some "alice") school welcome).
  - by apply alice_is_authenticated.
  - apply NoDup_cons. split; [|apply NoDup_singleton].
    intros H. apply list_elem_of_singleton in H.
    assert (welcome !! "_id" = Some (VStr "welcome")) as E1 by reflexivity.
    assert (bake_sale !! "_id" = Some (VOid "65f1c0ffee0000000000000a")) as E2
      by reflexivity.
    cbn in H. rewrite E1, E2 in H. discriminate H.
  - apply welcome_is_stored.
Defined.

(** A Delete that succeeded cannot be repeated: on a store with unique
    keys, the same request on the world it left fails with [NotFound]
    and leaves the store as it is. *)
Theorem deleting_twice_is_not_found
    (announcement_id : string) (username : option string)
    (w : world) (ack : doc) (w' : world) :
  NoDup ((.!! "_id") <$> announcements w) →
  serve (Delete announcement_id) username w = (Return ack, w') →
  ∃ w'', serve (Delete announcement_id) username w' = (Raise NotFound, w'')
         ∧ announcements w'' = announcements w'.
Proof.
  intros Hn.
  destruct (serve_inv (Delete announcement_id) username w)
    as [[_ ->]|[[_ (u & _ & ->)]|[Ha (u & teacher & -> & ->)]]]; [done..|].
  cbn [handler_of].
  set (w0 := record_call teachers_collection (FindOne (ById (VStr u))) w).
  destruct (delete_announcement_inv announcement_id teacher w0)
    as [[_ ->]|(c1 & d & c2 & Hd & Hc & Hc1 & ->)]; [done|].
  intros [= <- <-].
  pose proof Hd as (_ & _ & _ & Hm%matches_ById & _)%find_one_Some.
  cbn [announcements record_call w0] in Hc.
  match goal with |- ∃ _, serve _ _ ?x = _ ∧ _ => set (w1 := x) end.
  assert (authenticated (Some u) w1) as Ha1
    by (by apply (authenticated_same_directory _ w)).
  apply delete_unknown_string_key; [done|].
  unfold stored. cbn [announcements record_call set_contents w1].
  apply find_one_ById_None. intros x [Hx|Hx]%elem_of_app Hxid.
  - rewrite Forall_forall in Hc1. by apply (Hc1 x).
  - rewrite Hc, fmap_app, fmap_cons in Hn.
    apply NoDup_app in Hn as (_ & _ & [Hnot _]%NoDup_cons).
    apply Hnot, list_elem_of_fmap. exists x. by rewrite Hm, Hxid.
Qed.

Lemma deleting_twice_is_not_found_witness :
  ∃ w'',
    serve (Delete "welcome") (Some "alice")
          (serve (Delete "welcome") (Some "alice") school).2
    = (Raise NotFound, w'')
    ∧ announcements w''
      = announcements (serve (Delete "welcome") (Some "alice") school).2.
Proof.
  apply (deleting_twice_is_not_found "welcome" (Some "alice") school
           {[ "success" := VBool true ]}).
  - apply NoDup_cons. split; [|apply NoDup_singleton].
    intros H. apply list_elem_of_singleton in H.
    assert (welcome !! "_id" = Some (VStr "welcome")) as E1 by reflexivity.
    assert (bake_sale !! "_id" = Some (VOid "65f1c0ffee0000000000000a")) as E2
      by reflexivity.
    cbn in H. rewrite E1, E2 in H. discriminate H.
  - reflexivity.
Defined.

(** ** Create, again *)

(** After a Create the store's lookup by the new key finds the document
    that was made, and the lookup by any other key finds what it found
    before. *)
Theorem created_is_stored_under_its_key
    (oid : string) (message : string) (expiration : Z)
    (start_date : option Z) (username : option string) (w : world) :
  authenticated username w →
  (∀ d : doc, d ∈ announcements w → d !! "_id" ≠ Some (VOid oid)) →
  stored (VOid oid) (serve (Create oid message expiration start_date)
                           username w).2
  = Some (created oid message expiration start_date)
  ∧ ∀ k, k ≠ VOid oid →
         stored k (serve (Create oid message expiration start_date)
                         username w).2
         = stored k w.
Proof.
  intros Ha Hfresh%find_one_ById_None.
  destruct (serve_admitted (Create oid message expiration start_date)
              _ _ Ha) as (teacher & u & -> & ->).
  cbn [handler_of]. rewrite create_announcement_fresh by done.
  unfold stored. cbn [announcements record_call set_contents snd].
  assert (created oid message expiration start_date !! "_id"
          = Some (VOid oid)) as Hid by done.
  split.
  - rewrite find_one_snoc, Hfresh.
    by rewrite (proj2 (matches_ById _ _) Hid).
  - intros k Hk. rewrite find_one_snoc.
    destruct (Collection.find_one (ById k) (announcements w)); [done|].
    rewrite (proj2 (not_matches_ById _ _)); [done|]. rewrite Hid. congruence.
Qed.

Lemma created_is_stored_under_its_key_witness :
  stored (VOid "65f1c0ffee0000000000000b")
         (serve (Create "65f1c0ffee0000000000000b" "Exam Friday" 700 None)
                (Some "alice") school).2
  = Some (created "65f1c0ffee0000000000000b" "Exam Friday" 700 None)
  ∧ ∀ k, k ≠ VOid "65f1c0ffee0000000000000b" →
         stored k (serve (Create "65f1c0ffee0000000000000b" "Exam Friday"
                                 700 None) (Some "alice") school).2
         = stored k school.
Proof.
  apply (created_is_stored_under_its_key "65f1c0ffee0000000000000b"
           "Exam Friday" 700 None (Some "alice") school).
  - by apply alice_is_authenticated.
  - apply new_oid_is_fresh.
Defined.

(** Create, then List Active: the listing after the Create is the
    listing before it, followed by the new announcement when its
    expiration is at or after [now] and by nothing when it is not.  The
    new entry carries the id Create returned, the message and the
    expiration, and no storage key. *)
Theorem created_is_listed_while_unexpired
    (oid : string) (message : string) (expiration : Z)
    (start_date : option Z) (username : option string) (now : Z)
    (w : world) :
  authenticated username w →
  (∀ d : doc, d ∈ announcements w → d !! "_id" ≠ Some (VOid oid)) →
  keyed (announcements w) →
  ∃ before entry,
    (list_active now w).1 = Return before
    ∧ (list_active now (serve (Create oid message expiration start_date)
                              username w).2).1
      = Return (before ++ if bool_decide (now ≤ expiration) then [entry] else [])
    ∧ entry !! "id" = Some (VStr oid)
    ∧ entry !! "message" = Some (VStr message)
    ∧ entry !! "expiration" = Some (VDate expiration)
    ∧ entry !! "_id" = None.
Proof.
  intros Ha Hfresh%find_one_ById_None Hk.
  destruct (serve_admitted (Create oid message expiration start_date)
              _ _ Ha) as (teacher & u & -> & ->).
  cbn [handler_of]. rewrite create_announcement_fresh by done.
  set (c := created oid message expiration start_date).
  assert (c !! "_id" = Some (VOid oid)) as Hid by done.
  assert (c !! "expiration" = Some (VDate expiration)) as Hexp by done.
  assert (c !! "message" = Some (VStr message)) as Hmsg by done.
  exists (exposed <$> Collection.find (FieldGte "expiration" now)
                                      (announcements w)), (exposed c).
  unfold list_active. rewrite (get_announcements_keyed _ _ Hk).
  rewrite get_announcements_keyed.
  - cbn [announcements record_call set_contents fst snd].
    rewrite find_app, fmap_app. split_and!; [done| | | | |].
    + do 2 f_equal. unfold Collection.find. cbn [List.filter matches].
      rewrite Hexp. case_bool_decide.
      * by rewrite (proj2 (Z.leb_le _ _)).
      * by rewrite (proj2 (Z.leb_gt _ _)) by lia.
    + rewrite exposed_id. unfold Collection.id_of. by rewrite Hid.
    + by rewrite exposed_field.
    + by rewrite exposed_field.
    + apply exposed_no_storage_key.
  - cbn [announcements record_call set_contents snd].
    apply Forall_app. split; [done|]. constructor; [|done]. by eexists.
Qed.

Lemma created_is_listed_while_unexpired_witness :
  ∃ before entry,
    (list_active 50 school).1 = Return before
    ∧ (list_active 50
         (serve (Create "65f1c0ffee0000000000000b" "Exam Friday" 700 None)
                (Some "alice") school).2).1
      = Return (before ++ if bool_decide (50 ≤ 700) then [entry] else [])
    ∧ entry !! "id" = Some (VStr "65f1c0ffee0000000000000b")
    ∧ entry !! "message" = Some (VStr "Exam Friday")
    ∧ entry !! "expiration" = Some (VDate 700)
    ∧ entry !! "_id" = None.
Proof.
  apply (created_is_listed_while_unexpired "65f1c0ffee0000000000000b"
           "Exam Friday" 700 None (Some "alice") 50 school).
  - by apply alice_is_authenticated.
  - apply new_oid_is_fresh.
  - apply keyed_school.
Defined.

(** An announcement that Create made is out of reach of Update and of
    Delete.  When no stored key is the string of the new [ObjectId],
    Create returns that string as the id, and an Update (with a field)
    or a Delete by that id on the world Create left fails with
    [NotFound]: the handlers look the string up as the key, and the key
    is the [ObjectId]. *)
Theorem created_is_out_of_reach_of_its_id
    (oid : string) (message : string) (expiration : Z)
    (start_date : option Z) (username : option string) (w : world)
    (message' : option string) (expiration' start_date' : option Z) :
  authenticated username w →
  (∀ d : doc, d ∈ announcements w → d !! "_id" ≠ Some (VOid oid)) →
  (∀ d : doc, d ∈ announcements w → d !! "_id" ≠ Some (VStr oid)) →
  is_Some message' ∨ is_Some expiration' ∨ is_Some start_date' →
  ∃ ann w1,
    serve (Create oid message expiration start_date) username w
    = (Return ann, w1)
    ∧ ann !! "id" = Some (VStr oid)
    ∧ (serve (Update oid message' expiration' start_date') username w1).1
      = Raise NotFound
    ∧ (serve (Delete oid) username w1).1 = Raise NotFound
    ∧ stored (VOid oid)
             (serve (Delete oid) username w1).2
      = Some (created oid message expiration start_date).
Proof.
  intros Ha Hfresh%find_one_ById_None Hstr Hsome.
  destruct (serve_admitted (Create oid message expiration start_date)
              _ _ Ha) as (teacher & u & -> & ->).
  cbn [handler_of]. rewrite create_announcement_fresh by done.
  set (c := created oid message expiration start_date).
  assert (c !! "_id" = Some (VOid oid)) as Hid by done.
  eexists _, _. split; [done|]. split; [done|].
  match goal with |- context [serve (Delete oid) _ ?x] => set (w1 := x) end.
  assert (authenticated (Some u) w1) as Ha1
    by (by apply (authenticated_same_directory _ w)).
  assert (stored (VStr oid) w1 = None) as Hnone.
  { unfold stored. cbn [announcements record_call set_contents w1].
    rewrite find_one_snoc, (proj2 (find_one_ById_None _ _) Hstr).
    rewrite (proj2 (not_matches_ById _ _)); [done|]. by rewrite Hid. }
  split_and!.
  - destruct (serve_admitted (Update oid message' expiration' start_date')
                _ _ Ha1) as (teacher1 & u1 & _ & ->).
    cbn [handler_of]. rewrite update_announcement_not_found; [done| |done].
    rewrite update_fields_empty. intros (-> & -> & ->).
    by destruct Hsome as [[? [=]]|[[? [=]]|[? [=]]]].
  - by destruct (delete_unknown_string_key oid _ _ Ha1 Hnone) as (w2 & -> & _).
  - destruct (delete_unknown_string_key oid _ _ Ha1 Hnone) as (w2 & -> & E).
    unfold stored. cbn [snd]. rewrite E.
    cbn [announcements record_call set_contents w1].
    rewrite find_one_snoc, Hfresh.
    by rewrite (proj2 (matches_ById _ _) Hid).
Qed.

Lemma created_is_out_of_reach_of_its_id_witness :
  ∃ ann w1,
    serve (Create "65f1c0ffee0000000000000b" "Exam Friday" 700 None)
          (Some "alice") school
    = (Return ann, w1)
    ∧ ann !! "id" = Some (VStr "65f1c0ffee0000000000000b")
    ∧ (serve (Update "65f1c0ffee0000000000000b" (Some "Exam moved to Monday")
                     None None) (Some "alice") w1).1
      = Raise NotFound
    ∧ (serve (Delete "65f1c0ffee0000000000000b") (Some "alice") w1).1
      = Raise NotFound
    ∧ stored (VOid "65f1c0ffee0000000000000b")
             (serve (Delete "65f1c0ffee0000000000000b") (Some "alice") w1).2
      = Some (created "65f1c0ffee0000000000000b" "Exam Friday" 700 None).
Proof.
  apply (created_is_out_of_reach_of_its_id "65f1c0ffee0000000000000b"
           "Exam Friday" 700 None (Some "alice") school
           (Some "Exam moved to Monday") None None).
  - by apply alice_is_authenticated.
  - apply new_oid_is_fresh.
  - by apply find_one_ById_None.
  - left. by eexists.
Defined.

(** ** List Active, again *)

(** Delete, then List Active: the listing after a Delete that succeeded
    is the listing before it without the entry of the deleted
    announcement, which was there exactly when it had not expired; the
    other entries stay, in their order. *)
Theorem deleted_is_no_longer_listed
    (announcement_id : string) (username : option string) (now : Z)
    (w : world) (ack : doc) (w' : world) :
  keyed (announcements w) →
  serve (Delete announcement_id) username w = (Return ack, w') →
  ∃ d l1 l2,
    stored (VStr announcement_id) w = Some d
    ∧ (list_active now w).1
      = Return (l1 ++ (if matches (FieldGte "expiration" now) d
                       then [exposed d] else []) ++ l2)
    ∧ (list_active now w').1 = Return (l1 ++ l2).
Proof.
  intros Hk.
  destruct (serve_inv (Delete announcement_id) username w)
    as [[_ ->]|[[_ (u & _ & ->)]|[Ha (u & teacher & -> & ->)]]]; [done..|].
  cbn [handler_of].
  set (w0 := record_call teachers_collection (FindOne (ById (VStr u))) w).
  destruct (delete_announcement_inv announcement_id teacher w0)
    as [[_ ->]|(c1 & d & c2 & Hd & Hc & _ & ->)]; [done|].
  intros [= <- <-]. cbn [announcements record_call w0] in Hc.
  exists d, (exposed <$> Collection.find (FieldGte "expiration" now) c1),
         (exposed <$> Collection.find (FieldGte "expiration" now) c2).
  split; [done|]. unfold list_active.
  rewrite (get_announcements_keyed _ _ Hk). rewrite get_announcements_keyed.
  - cbn [announcements record_call set_contents fst]. rewrite Hc.
    rewrite !find_app, !fmap_app. split; [|done]. do 2 f_equal.
    unfold Collection.find. cbn [List.filter].
    by destruct (matches (FieldGte "expiration" now) d).
  - cbn [announcements record_call set_contents].
    unfold keyed in Hk |- *. rewrite Hc, Forall_app, Forall_cons in Hk.
    rewrite Forall_app. tauto.
Qed.

Lemma deleted_is_no_longer_listed_witness :
  ∃ d l1 l2,
    stored (VStr "welcome") school = Some d
    ∧ (list_active 50 school).1
      = Return (l1 ++ (if matches (FieldGte "expiration" 50) d
                       then [exposed d] else []) ++ l2)
    ∧ (list_active 50 (serve (Delete "welcome") (Some "alice") school).2).1
      = Return (l1 ++ l2).
Proof.
  apply (deleted_is_no_longer_listed "welcome" (Some "alice") 50 school
           {[ "success" := VBool true ]}).
  - apply keyed_school.
  - reflexivity.
Defined.

(** As time passes announcements only drop out of List Active: what is
    listed at a later instant is a part, in the same order, of what is
    listed at an earlier one. *)
Theorem list_active_shrinks_with_time (now1 now2 : Z) (w : world) :
  keyed (announcements w) →
  now1 ≤ now2 →
  ∃ l1 l2,
    (list_active now1 w).1 = Return l1
    ∧ (list_active now2 w).1 = Return l2
    ∧ l2 `sublist_of` l1.
Proof.
  intros Hk Hle. unfold list_active.
  rewrite !(get_announcements_keyed _ _ Hk).
  eexists _, _. split_and!; [done..|]. cbn [fst].
  generalize (announcements w). intros c. unfold Collection.find.
  induction c as [|d c IH]; cbn [List.filter]; [done|].
  destruct (matches (FieldGte "expiration" now2) d) eqn:E2.
  - assert (matches (FieldGte "expiration" now1) d = true) as ->.
    { simpl in E2 |- *.
      destruct (d !! "expiration") as [[| | |t|]|]; try done.
      apply Z.leb_le. apply Z.leb_le in E2. lia. }
    rewrite !fmap_cons. by apply sublist_skip.
  - destruct (matches (FieldGte "expiration" now1) d); [|done].
    rewrite fmap_cons. by apply sublist_cons.
Qed.

Lemma list_active_shrinks_with_time_witness :
  ∃ l1 l2,
    (list_active 5 school).1 = Return l1
    ∧ (list_active 50 school).1 = Return l2
    ∧ l2 `sublist_of` l1.
Proof.
  apply (list_active_shrinks_with_time 5 50 school).
  - apply keyed_school.
  - done.
Defined.

(** ** The caller *)

(** A handler uses neither the record of the caller nor the calls made
    before it: its outcome and the store it leaves depend on the store
    it finds. *)
Lemma handler_ignores_the_caller (r : mutation) (t1 t2 : doc) (w1 w2 : world) :
  announcements w1 = announcements w2 →
  (handler_of r t1 w1).1 = (handler_of r t2 w2).1
  ∧ announcements (handler_of r t1 w1).2 = announcements (handler_of r t2 w2).2.
Proof.
  intros H. destruct r as [oid m e s|id m e s|id]; cbn [handler_of].
  - unfold create_announcement, mbind, M_bind, insert_one. cbn [contents].
    rewrite H.
    by destruct (Collection.insert_one _ _ _) as [d' [c|]].
  - set (fields := update_fields_of m e s).
    destruct (update_announcement_inv id m e s t1 w1)
      as [[He ->]|[(Hne & Hd & ->)|(Hne & c1 & d & c2 & Hd & Hc & Hc1 & ->)]];
    destruct (update_announcement_inv id m e s t2 w2)
      as [[He' ->]|[(Hne' & Hd' & ->)
                   |(Hne' & c1' & d' & c2' & Hd' & Hc' & Hc1' & ->)]];
      try done; unfold stored in *; rewrite H in *; try congruence.
    rewrite Hd in Hd'. injection Hd' as <-.
    cbn [fst snd announcements record_call set_contents].
    split; [done|].
    assert (Collection.update_one (ById (VStr id)) fields (announcements w2)
            = (c1 ++ (fields ∪ d) :: c2, 1)) as E1.
    { rewrite Hc. apply update_one_app.
      - eapply Forall_impl; [exact Hc1|]. intros x. by rewrite not_matches_ById.
      - by apply find_one_Some in Hd as (_ & _ & _ & ? & _). }
    assert (Collection.update_one (ById (VStr id)) fields (announcements w2)
            = (c1' ++ (fields ∪ d) :: c2', 1)) as E2.
    { rewrite Hc'. apply update_one_app.
      - eapply Forall_impl; [exact Hc1'|]. intros x. by rewrite not_matches_ById.
      - by apply find_one_Some in Hd as (_ & _ & _ & ? & _). }
    rewrite E1 in E2. by injection E2.
  - destruct (delete_announcement_inv id t1 w1)
      as [[Hd ->]|(c1 & d & c2 & Hd & Hc & Hc1 & ->)];
    destruct (delete_announcement_inv id t2 w2)
      as [[Hd' ->]|(c1' & d' & c2' & Hd' & Hc' & Hc1' & ->)];
      try done; unfold stored in *; rewrite H in *; try congruence.
    rewrite Hd in Hd'. injection Hd' as <-.
    cbn [fst snd announcements record_call set_contents].
    split; [done|].
    assert (Collection.delete_one (ById (VStr id)) (announcements w2)
            = (c1 ++ c2, 1)) as E1.
    { rewrite Hc. apply delete_one_app.
      - eapply Forall_impl; [exact Hc1|]. intros x. by rewrite not_matches_ById.
      - by apply find_one_Some in Hd as (_ & _ & _ & ? & _). }
    assert (Collection.delete_one (ById (VStr id)) (announcements w2)
            = (c1' ++ c2', 1)) as E2.
    { rewrite Hc'. apply delete_one_app.
      - eapply Forall_impl; [exact Hc1'|]. intros x. by rewrite not_matches_ById.
      - by apply find_one_Some in Hd as (_ & _ & _ & ? & _). }
    rewrite E1 in E2. by injection E2.
Qed.

(** Authentication is a check of existence and nothing more: for two
    callers that both pass the gate, the same request has the same
    outcome and leaves the same store. *)
Theorem any_authenticated_caller_does_the_same
    (r : mutation) (caller1 caller2 : option string) (w : world) :
  authenticated caller1 w → authenticated caller2 w →
  (serve r caller1 w).1 = (serve r caller2 w).1
  ∧ announcements (serve r caller1 w).2 = announcements (serve r caller2 w).2.
Proof.
  intros Ha1 Ha2.
  destruct (serve_admitted r _ _ Ha1) as (t1 & u1 & -> & ->).
  destruct (serve_admitted r _ _ Ha2) as (t2 & u2 & -> & ->).
  by apply handler_ignores_the_caller.
Qed.

Lemma any_authenticated_caller_does_the_same_witness :
  (serve (Delete "welcome") (Some "alice") staffroom).1
  = (serve (Delete "welcome") (Some "bob") staffroom).1
  ∧ announcements (serve (Delete "welcome") (Some "alice") staffroom).2
    = announcements (serve (Delete "welcome") (Some "bob") staffroom).2.
Proof.
  apply (any_authenticated_caller_does_the_same (Delete "welcome")
           (Some "alice") (Some "bob") staffroom).
  - exists "alice". split_and!; [done..|]. exists alice.
    split; [apply list_elem_of_here|reflexivity].
  - exists "bob". split_and!; [done..|]. exists bob.
    split; [apply list_elem_of_further, list_elem_of_here|reflexivity].
Defined.

(** ** Update and the listing *)

Lemma exposed_listed_iff (now : Z) (c : list doc) (d : doc) (e : Z) :
  d ∈ c → exposed d !! "expiration" = Some (VDate e) →
  exposed d ∈ exposed <$> Collection.find (FieldGte "expiration" now) c
  ↔ now ≤ e.
Proof.
  intros Hd He. rewrite list_elem_of_fmap. split.
  - intros (d' & Hdd' & (_ & Hm)%elem_of_find).
    rewrite Hdd', exposed_field in He by done.
    simpl in Hm. rewrite He in Hm. lia.
  - intros Hle. exists d. split; [done|]. apply elem_of_find.
    split; [done|]. rewrite exposed_field in He by done.
    simpl. rewrite He. lia.
Qed.

(** Update, then List Active: the announcement that a successful Update
    returned is in the listing afterwards exactly when the expiration it
    now has is at or after [now]. *)
Theorem updated_is_listed_while_unexpired
    (announcement_id : string) (message : option string)
    (expiration start_date : option Z) (username : option string)
    (now : Z) (w : world) (ann : doc) (w' : world) :
  keyed (announcements w) →
  serve (Update announcement_id message expiration start_date) username w
  = (Return ann, w') →
  ∃ anns,
    (list_active now w').1 = Return anns
    ∧ ∀ e, ann !! "expiration" = Some (VDate e) → ann ∈ anns ↔ now ≤ e.
Proof.
  intros Hk.
  set (fields := update_fields_of message expiration start_date).
  destruct (serve_inv (Update announcement_id message expiration start_date)
              username w)
    as [[_ ->]|[[_ (u & _ & ->)]|[Ha (u & teacher & -> & ->)]]]; [done..|].
  cbn [handler_of].
  set (w0 := record_call teachers_collection (FindOne (ById (VStr u))) w).
  destruct (update_announcement_inv announcement_id message expiration
              start_date teacher w0)
    as [[_ ->]|[(_ & _ & ->)|(Hne & c1 & d & c2 & Hd & Hc & Hc1 & ->)]];
    [done..|].
  fold fields. intros [= <- <-]. cbn [announcements record_call w0] in Hc.
  unfold list_active. rewrite get_announcements_keyed.
  - eexists. split; [done|]. intros e He.
    cbn [announcements record_call set_contents].
    apply exposed_listed_iff; [|done]. set_solver.
  - cbn [announcements record_call set_contents].
    unfold keyed in Hk |- *. rewrite Hc, Forall_app, Forall_cons in Hk.
    rewrite Forall_app, Forall_cons.
    rewrite lookup_union_r; [tauto|]. by apply update_fields_other.
Qed.

Lemma updated_is_listed_while_unexpired_witness :
  ∃ anns,
    (list_active 50
       (serve (Update "welcome" None (Some 20) None) (Some "alice")
              school).2).1 = Return anns
    ∧ ∀ e, exposed (update_fields_of None (Some 20) None ∪ welcome)
             !! "expiration" = Some (VDate e) →
           exposed (update_fields_of None (Some 20) None ∪ welcome) ∈ anns
           ↔ 50 ≤ e.
Proof.
  apply (updated_is_listed_while_unexpired "welcome" None (Some 20) None
           (Some "alice") 50 school).
  - apply keyed_school.
  - reflexivity.
Defined.

(** An Update never takes a field away and never sets one to [None]:
    whatever it is given and however it ends, a field of a stored
    announcement that held a value other than [None] holds one
    afterwards.  In particular a start_date, once it is a date, cannot
    be cleared. *)
Theorem update_never_clears_a_field
    (announcement_id : string) (message : option string)
    (expiration start_date : option Z) (username : option string)
    (w : world) :
  Forall2 (λ x x' : doc,
             ∀ key v, x !! key = Some v → v ≠ VNone →
                      ∃ v', x' !! key = Some v' ∧ v' ≠ VNone)
          (announcements w)
          (announcements
             (serve (Update announcement_id message expiration start_date)
                    username w).2).
Proof.
  assert (∀ c : list doc,
            Forall2 (λ x x' : doc,
                       ∀ key v, x !! key = Some v → v ≠ VNone →
                                ∃ v', x' !! key = Some v' ∧ v' ≠ VNone) c c)
    as Hrefl.
  { intros c. apply Forall_Forall2_diag, Forall_forall. intros x _ key v ??.
    by exists v. }
  destruct (update_store_cases announcement_id message expiration start_date
              username w) as [->|(c1 & d & c2 & _ & -> & ->)]; [done|].
  apply Forall2_app; [done|]. constructor; [|done].
  intros key v Hv Hnone. rewrite patched_lookup.
  destruct (decide (key = "message")) as [->|?].
  { rewrite update_fields_message. destruct message; simpl; eauto. }
  destruct (decide (key = "expiration")) as [->|?].
  { rewrite update_fields_expiration. destruct expiration; simpl; eauto. }
  destruct (decide (key = "start_date")) as [->|?].
  { rewrite update_fields_start_date. destruct start_date; simpl; eauto. }
  rewrite update_fields_other by done. eauto.
Qed.

(** ** The shape of what is stored *)

(** When every stored document has the shape of an announcement, every
    stored document has it after any mutating request, whoever the
    caller and however the request ends: Create stores a string, a date
    and a date or [None], Update writes strings to message and dates to
    the two dates, Delete only removes. *)
Theorem mutations_keep_the_announcements_shaped
    (r : mutation) (username : option string) (w : world) :
  Forall announcement_shaped (announcements w) →
  Forall announcement_shaped (announcements (serve r username w).2).
Proof.
  intros Hs.
  destruct (serve_inv r username w)
    as [[_ ->]|[[_ (u & _ & ->)]|[_ (u & teacher & _ & ->)]]]; [done..|].
  set (w0 := record_call teachers_collection (FindOne (ById (VStr u))) w).
  destruct r as [oid m e s|id m e s|id]; cbn [handler_of].
  - destruct (create_announcement_inv oid m e s teacher w0)
      as [[_ ->]|[_ ->]]; [|done].
    cbn [announcements record_call set_contents snd w0].
    apply Forall_app. split; [done|]. constructor; [|done].
    unfold announcement_shaped. split_and!; [by exists m|by exists e|].
    destruct s as [t|]; [right; by exists t|by left].
  - destruct (update_announcement_inv id m e s teacher w0)
      as [[_ ->]|[(_ & _ & ->)|(_ & c1 & d & c2 & _ & Hc & _ & ->)]];
      [done..|].
    cbn [announcements record_call set_contents snd w0] in Hc |- *.
    rewrite Hc, Forall_app, Forall_cons in Hs.
    destruct Hs as (H1 & ([m0 Hm] & [e0 He] & Hsd) & H2).
    rewrite Forall_app, Forall_cons. split_and!; [done| |done].
    unfold announcement_shaped. split_and!.
    + rewrite patched_lookup, update_fields_message.
      destruct m; simpl; eauto.
    + rewrite patched_lookup, update_fields_expiration.
      destruct e; simpl; eauto.
    + rewrite patched_lookup, update_fields_start_date.
      destruct s; simpl; eauto.
  - destruct (delete_announcement_inv id teacher w0)
      as [[_ ->]|(c1 & d & c2 & _ & Hc & _ & ->)]; [done|].
    cbn [announcements record_call set_contents snd w0] in Hc |- *.
    rewrite Hc, Forall_app, Forall_cons in Hs. rewrite Forall_app. tauto.
Qed.

Lemma mutations_keep_the_announcements_shaped_witness :
  Forall announcement_shaped
    (announcements
       (serve (Update "welcome" (Some "") None (Some 7)) (Some "alice")
              school).2).
Proof.
  apply (mutations_keep_the_announcements_shaped
           (Update "welcome" (Some "") None (Some 7)) (Some "alice") school).
  repeat constructor; (by eexists) || (by left) || (right; by eexists).
Defined.

(** ** The calls a request makes on the store *)

(** A mutating request adds to the calls on the store nothing, or one
    insert, or one update, or one update followed by the read of the
    same key, or one delete: never a read before the write and never
    more than one write. *)
Theorem one_request_makes_one_write_at_most
    (r : mutation) (username : option string) (w : world) :
  ∃ l, store_calls (serve r username w).2 = store_calls w ++ l
       ∧ calls_of_one_request l.
Proof.
  unfold calls_of_one_request.
  destruct (serve_inv r username w)
    as [[Hn ->]|[[Hn (u & _ & ->)]|[Ha (u & teacher & _ & ->)]]].
  - exists []. rewrite app_nil_r. auto.
  - exists []. cbn [snd]. rewrite store_calls_record_teachers, app_nil_r. auto.
  - set (w0 := record_call teachers_collection (FindOne (ById (VStr u))) w).
    assert (store_calls w0 = store_calls w) as E0
      by apply store_calls_record_teachers.
    destruct r as [oid m e s|id m e s|id]; cbn [handler_of].
    + destruct (create_announcement_inv oid m e s teacher w0)
        as [[_ ->]|[_ ->]]; cbn [snd];
        rewrite store_calls_record_announcements;
        (eexists; split; [by rewrite <-E0|]);
        right; left; by eexists.
    + destruct (update_announcement_inv id m e s teacher w0)
        as [[_ ->]|[(_ & _ & ->)|(_ & c1 & d & c2 & _ & _ & _ & ->)]];
        cbn [snd].
      * exists []. rewrite app_nil_r. auto.
      * rewrite store_calls_record_announcements.
        eexists. split; [by rewrite <-E0|].
        right; right; left. by eexists _, _.
      * rewrite !store_calls_record_announcements, <-(assoc_L (++)).
        eexists. split; [by rewrite <-E0|].
        right; right; right; left. by eexists _, _.
    + destruct (delete_announcement_inv id teacher w0)
        as [[_ ->]|(c1 & d & c2 & _ & _ & _ & ->)]; cbn [snd];
        rewrite store_calls_record_announcements;
        (eexists; split; [by rewrite <-E0|]);
        right; right; right; right; by eexists.
Qed.
